(** * mobx-react class-component observer: a shallow embedding

    The development follows [packages/mobx-react/src/observerClass.ts] and
    [packages/mobx-react/src/observer.tsx].  JavaScript code that mutates the
    per-instance administration record, mints symbols and calls into mobx or
    React is written in a small state-and-exception monad [JS]; calls that
    leave the module (atoms, the reaction, the finalization registry, the
    registered update callback, console warnings) are recorded, in order, in
    an event trace. *)

From stdpp Require Import base gmap sets list strings.

Set Warnings "-clear-no-such-hyp".

Open Scope string_scope.
Open Scope list_scope.
Open Scope nat_scope.

(** ** JavaScript values *)

(** Identity of a heap object. *)
Definition ref := nat.

(** The values React hands over as props, state and context, and the values a
    render function returns: [undefined], [null] or an object known by its
    identity. *)
Inductive value :=
| VUndefined
| VNull
| VObject (r : ref).

(** Anything a [throw] can carry and a [catch] can bind: one of the values
    above, or an [Error] object built by [new Error(msg)] / raised by the
    runtime. *)
Inductive any :=
| Val (v : value)
| Err (msg : string).

Global Instance value_eq_dec : EqDecision value.
Proof. solve_decision. Defined.

Global Instance any_eq_dec : EqDecision any.
Proof. solve_decision. Defined.

(** JavaScript truthiness, as used by [if (x)] and [x && ...]. *)
Definition truthy (v : value) : bool :=
  match v with
  | VUndefined | VNull => false
  | VObject _ => true
  end.

Definition truthyAny (e : any) : bool :=
  match e with
  | Val v => truthy v
  | Err _ => true
  end.

(** [Symbol()]: symbols are numbered in the order they are minted; they are
    only ever compared for identity. *)
Definition Symbol := nat.

(** [WeakSet<any>]: membership by object identity.  Values that are not
    objects are never members. *)
Definition WeakSet := gset ref.

Definition weakHas (ws : WeakSet) (v : value) : bool :=
  match v with
  | VObject r => bool_decide (r ∈ ws)
  | _ => false
  end.

Definition weakDelete (ws : WeakSet) (v : value) : WeakSet :=
  match v with
  | VObject r => ws ∖ {[ r ]}
  | _ => ws
  end.

(** [ws.add(v)] raises a [TypeError] unless [v] is an object. *)
Definition weakAdd (ws : WeakSet) (v : value) : option WeakSet :=
  match v with
  | VObject r => Some ({[ r ]} ∪ ws)
  | _ => None
  end.

(** ** The administration record *)

Inductive key := props | state | context.

Global Instance key_eq_dec : EqDecision key.
Proof. solve_decision. Defined.

(** A mobx [Reaction] and a registered [scheduleUpdate] callback are known by
    their identity. *)
Definition Reaction := nat.
Definition callback := nat.

Record ObserverAdministration := mkAdmin {
  reaction : option Reaction;
  scheduleUpdate : option callback;
  mounted : bool;
  name : string;
  cachedProps : value;
  cachedState : value;
  cachedContext : value;
  pendingStateVersion : Symbol;
  stateVersion : Symbol;
  changedVariables : WeakSet;
  unchangedVariables : WeakSet
}.

(** [admin[key]] *)
Definition cached (k : key) (a : ObserverAdministration) : value :=
  match k with
  | props => cachedProps a
  | state => cachedState a
  | context => cachedContext a
  end.

Definition set_reaction (r : option Reaction) (a : ObserverAdministration) :=
  mkAdmin r (scheduleUpdate a) (mounted a) (name a) (cachedProps a)
    (cachedState a) (cachedContext a) (pendingStateVersion a) (stateVersion a)
    (changedVariables a) (unchangedVariables a).

Definition set_scheduleUpdate (c : option callback) (a : ObserverAdministration) :=
  mkAdmin (reaction a) c (mounted a) (name a) (cachedProps a)
    (cachedState a) (cachedContext a) (pendingStateVersion a) (stateVersion a)
    (changedVariables a) (unchangedVariables a).

Definition set_mounted (m : bool) (a : ObserverAdministration) :=
  mkAdmin (reaction a) (scheduleUpdate a) m (name a) (cachedProps a)
    (cachedState a) (cachedContext a) (pendingStateVersion a) (stateVersion a)
    (changedVariables a) (unchangedVariables a).

(** [admin[key] = value] *)
Definition set_cached (k : key) (v : value) (a : ObserverAdministration) :=
  mkAdmin (reaction a) (scheduleUpdate a) (mounted a) (name a)
    (if decide (k = props) then v else cachedProps a)
    (if decide (k = state) then v else cachedState a)
    (if decide (k = context) then v else cachedContext a)
    (pendingStateVersion a) (stateVersion a)
    (changedVariables a) (unchangedVariables a).

Definition set_pendingStateVersion (t : Symbol) (a : ObserverAdministration) :=
  mkAdmin (reaction a) (scheduleUpdate a) (mounted a) (name a) (cachedProps a)
    (cachedState a) (cachedContext a) t (stateVersion a)
    (changedVariables a) (unchangedVariables a).

Definition set_stateVersion (t : Symbol) (a : ObserverAdministration) :=
  mkAdmin (reaction a) (scheduleUpdate a) (mounted a) (name a) (cachedProps a)
    (cachedState a) (cachedContext a) (pendingStateVersion a) t
    (changedVariables a) (unchangedVariables a).

Definition set_changedVariables (ws : WeakSet) (a : ObserverAdministration) :=
  mkAdmin (reaction a) (scheduleUpdate a) (mounted a) (name a) (cachedProps a)
    (cachedState a) (cachedContext a) (pendingStateVersion a) (stateVersion a)
    ws (unchangedVariables a).

Definition set_unchangedVariables (ws : WeakSet) (a : ObserverAdministration) :=
  mkAdmin (reaction a) (scheduleUpdate a) (mounted a) (name a) (cachedProps a)
    (cachedState a) (cachedContext a) (pendingStateVersion a) (stateVersion a)
    (changedVariables a) ws.

(** ** Calls that leave the module *)

(** The registered update callback is the hosting wrapper's: in
    [WrappedComponent] it is [setValue] of the store defined further down.
    A call of it, like a call of a store listener, is recorded and not
    followed; whatever the framework does in response shows up as later
    operations on the instance. *)

Inductive Event :=
| ReportObserved (k : key)              (* admin[atomKey].reportObserved() *)
| ReportChanged (k : key)               (* admin[atomKey].reportChanged() *)
| ScheduleUpdate (cb : callback) (snapshot : Symbol)
                                        (* admin.scheduleUpdate(snapshot) *)
| NewReaction (r : Reaction)            (* new Reaction(name, onInvalidate) *)
| Dispose (r : Reaction)                (* reaction.dispose() *)
| TrackStart (r : Reaction)             (* reaction.track(fn): before fn *)
| TrackEnd (r : Reaction)               (* reaction.track(fn): after fn *)
| Register                              (* observerFinalizationRegistry.register *)
| Unregister                            (* observerFinalizationRegistry.unregister *)
| Warn.                                 (* console.warn *)

Global Instance Event_eq_dec : EqDecision Event.
Proof. solve_decision. Defined.

(** Which function the instance's own [render] property holds once the
    prototype's [render] has run for the first time. *)
Inductive installedRender := OriginalRender | ReactiveRender.

(** ** The state one component instance lives in *)

Record State := mkState {
  (* component[administrationSymbol] *)
  administration : option ObserverAdministration;
  (* own [render] property of the instance, if already defined *)
  instanceRender : option installedRender;
  (* this.componentDidMount === Object.getPrototypeOf(this).componentDidMount *)
  didMountOnPrototype : bool;
  (* getDisplayName(component.constructor) *)
  displayName : string;
  (* __DEV__ *)
  DEV : bool;
  (* isUsingStaticRendering() *)
  staticRendering : bool;
  (* mobx globalState.allowStateChanges *)
  allowStateChanges : bool;
  (* number of symbols minted so far *)
  symbols : nat;
  (* number of reactions constructed so far *)
  reactions : nat;
  (* calls made to the outside, oldest first *)
  trace : list Event
}.

Definition set_administration (o : option ObserverAdministration) (s : State) :=
  mkState o (instanceRender s) (didMountOnPrototype s) (displayName s) (DEV s)
    (staticRendering s) (allowStateChanges s) (symbols s) (reactions s) (trace s).

Definition set_instanceRender (o : option installedRender) (s : State) :=
  mkState (administration s) o (didMountOnPrototype s) (displayName s) (DEV s)
    (staticRendering s) (allowStateChanges s) (symbols s) (reactions s) (trace s).

Definition set_staticRendering (b : bool) (s : State) :=
  mkState (administration s) (instanceRender s) (didMountOnPrototype s)
    (displayName s) (DEV s) b (allowStateChanges s) (symbols s) (reactions s)
    (trace s).

Definition set_allowStateChanges (b : bool) (s : State) :=
  mkState (administration s) (instanceRender s) (didMountOnPrototype s)
    (displayName s) (DEV s) (staticRendering s) b (symbols s) (reactions s)
    (trace s).

Definition set_symbols (n : nat) (s : State) :=
  mkState (administration s) (instanceRender s) (didMountOnPrototype s)
    (displayName s) (DEV s) (staticRendering s) (allowStateChanges s) n
    (reactions s) (trace s).

Definition set_reactions (n : nat) (s : State) :=
  mkState (administration s) (instanceRender s) (didMountOnPrototype s)
    (displayName s) (DEV s) (staticRendering s) (allowStateChanges s)
    (symbols s) n (trace s).

Definition set_trace (t : list Event) (s : State) :=
  mkState (administration s) (instanceRender s) (didMountOnPrototype s)
    (displayName s) (DEV s) (staticRendering s) (allowStateChanges s)
    (symbols s) (reactions s) t.

(** ** The monad of JavaScript computations *)

Inductive Completion (A : Type) :=
| Normal (a : A)
| Abrupt (e : any).

Arguments Normal {A} a.
Arguments Abrupt {A} e.

Definition JS (A : Type) : Type := State → Completion A * State.

Global Instance JS_ret : MRet JS := λ A a s, (Normal a, s).

Global Instance JS_bind : MBind JS := λ A B f m s,
  match m s with
  | (Normal a, s') => f a s'
  | (Abrupt e, s') => (Abrupt e, s')
  end.

Definition throw {A} (e : any) : JS A := λ s, (Abrupt e, s).

(** [try { body } catch (e) { handler e }] *)
Definition tryCatch {A} (body : JS A) (handler : any → JS A) : JS A := λ s,
  match body s with
  | (Normal a, s') => (Normal a, s')
  | (Abrupt e, s') => handler e s'
  end.

(** [try { body } finally { cleanup }] for a cleanup that cannot throw *)
Definition tryFinally {A} (body : JS A) (cleanup : State → State) : JS A := λ s,
  let '(c, s') := body s in (c, cleanup s').

Definition gets {A} (f : State → A) : JS A := λ s, (Normal (f s), s).
Definition modify (f : State → State) : JS unit := λ s, (Normal (), f s).

Definition emit (e : Event) : JS unit :=
  modify (λ s, set_trace (trace s ++ [e]) s).

(** [Symbol()] *)
Definition mintSymbol : JS Symbol := λ s,
  (Normal (symbols s), set_symbols (S (symbols s)) s).

(** [isUsingStaticRendering()] from mobx-react-lite *)
Definition isUsingStaticRendering : JS bool := gets staticRendering.

(** [_allowStateChanges(allow, func)] from mobx: runs [func] with the global
    flag set to [allow] and restores the flag afterwards, also when [func]
    throws. *)
Definition _allowStateChanges {A} (allow : bool) (func : JS A) : JS A := λ s,
  let prev := allowStateChanges s in
  tryFinally func (set_allowStateChanges prev) (set_allowStateChanges allow s).

(** ** observerClass.ts *)

(** [getAdministration(component)]: the record is created on first access,
    with one fresh symbol for both version fields. *)
Definition getAdministration : JS ObserverAdministration := λ s,
  match administration s with
  | Some a => (Normal a, s)
  | None =>
      let initialSymbol := symbols s in
      let a := {| reaction := None;
                  mounted := false;
                  scheduleUpdate := None;
                  name := displayName s;
                  cachedState := VUndefined;
                  cachedProps := VUndefined;
                  cachedContext := VUndefined;
                  changedVariables := ∅;
                  unchangedVariables := ∅;
                  pendingStateVersion := initialSymbol;
                  stateVersion := initialSymbol |} in
      (Normal a, set_administration (Some a) (set_symbols (S initialSymbol) s))
  end.

(** [!x] for a handle [x] that is an object or [null]. *)
Definition isNull {A} (x : option A) : bool :=
  match x with
  | Some _ => false
  | None => true
  end.

(** [admin.field]: a read of the live record. *)
Definition admin {A} (field : ObserverAdministration → A) : JS A :=
  a ← getAdministration; mret (field a).

(** [admin.field = ...]: an update of the live record. *)
Definition assign (upd : ObserverAdministration → ObserverAdministration) : JS unit :=
  modify (λ s, set_administration (upd <$> administration s) s).

(** [admin.scheduleUpdate?.(snapshot)] *)
Definition callScheduleUpdate (snapshot : Symbol) : JS unit :=
  cb ← admin scheduleUpdate;
  match cb with
  | Some f => emit (ScheduleUpdate f snapshot)
  | None => mret ()
  end.

(** [shallowEqual] is imported from [./utils/utils]; the synchronizer is
    parametric in it. *)
Class ShallowEqual := shallowEqual : value → value → bool.

Section Synchronizer.
Context `{ShallowEqual}.

(** The [get()] of [createObservablePropDescriptor(key)].  The read
    permission that [_allowStateReadsStart(true)] grants around the report
    is withdrawn again by [_allowStateReadsEnd] before the getter returns. *)
Definition propGet (k : key) : JS value :=
  _ ← getAdministration;
  emit (ReportObserved k);;
  admin (cached k).

(** The [set(value)] of [createObservablePropDescriptor(key)]. *)
Definition propSet (k : key) (v : value) : JS unit :=
  _ ← getAdministration;
  inChanged ← admin (λ a, weakHas (changedVariables a) v);
  if (inChanged : bool) then
    assign (λ a, set_changedVariables (weakDelete (changedVariables a) v) a);;
    assign (set_cached k v);;
    emit (ReportChanged k)
  else
    inUnchanged ← admin (λ a, weakHas (unchangedVariables a) v);
    if (inUnchanged : bool) then
      assign (λ a, set_unchangedVariables (weakDelete (unchangedVariables a) v) a);;
      assign (set_cached k v)
    else
      old ← admin (cached k);
      if negb (shallowEqual old v) then
        assign (set_cached k v);;
        t ← mintSymbol;
        assign (set_pendingStateVersion t);;
        emit (ReportChanged k)
      else
        assign (set_cached k v).

(** The callback given to [new Reaction(...)] in [createReaction(admin)]. *)
Definition onInvalidate : JS unit :=
  pending ← admin pendingStateVersion;
  committed ← admin stateVersion;
  if negb (bool_decide (pending = committed)) then
    mret ()
  else
    t ← mintSymbol;
    assign (set_pendingStateVersion t);;
    m ← admin mounted;
    if (m : bool) then
      pending' ← admin pendingStateVersion;
      callScheduleUpdate pending'
    else mret ().

(** [createReaction(admin)] *)
Definition createReaction : JS Reaction :=
  r ← gets reactions;
  modify (set_reactions (S r));;
  emit (NewReaction r);;
  mret r.

(** [reaction.track(fn)] from mobx.  The function handed over below catches
    whatever its body throws, so the tracked scope always closes. *)
Definition track {A} (r : Reaction) (fn : JS A) : JS A :=
  emit (TrackStart r);;
  x ← fn;
  emit (TrackEnd r);;
  mret x.

(** [prototype.setScheduleUpdate] *)
Definition setScheduleUpdate (cb : callback) : JS unit :=
  static ← isUsingStaticRendering;
  if (static : bool) then mret ()
  else
    _ ← getAdministration;
    assign (set_scheduleUpdate (Some cb));;
    pending ← admin pendingStateVersion;
    committed ← admin stateVersion;
    m ← admin mounted;
    if negb (bool_decide (pending = committed)) && m then
      callScheduleUpdate pending
    else mret ().

(** [reactiveRender], the function returned by [createReactiveRender].  The
    two locals [error] and [renderResult], written from inside the tracked
    closure, are returned by that closure instead. *)
Definition reactiveRender (boundOriginalRender : JS value) : JS value :=
  r0 ← admin reaction;
  (match r0 with
   | None =>
       r ← createReaction;
       assign (set_reaction (Some r));;
       m ← admin mounted;
       if negb (m : bool) then emit Register else mret ()
   | Some _ => mret ()
   end);;
  r1 ← admin reaction;
  match r1 with
  | None => throw (Err "TypeError")
  | Some r =>
      '(error, renderResult) ←
        track r
          (tryCatch
             (result ← _allowStateChanges false boundOriginalRender;
              pending ← admin pendingStateVersion;
              assign (set_stateVersion pending);;
              mret (Val VUndefined, result))
             (λ e, mret (e, VUndefined)));
      if truthyAny error then throw error
      else mret renderResult
  end.

(** [createReactiveRender.call(this, originalRender)]: the administration is
    looked up when the render function is created. *)
Definition createReactiveRender : JS installedRender :=
  _ ← getAdministration;
  mret ReactiveRender.

(** The patched [prototype.render]: the first call defines the instance's
    own, frozen [render] and calls it; later calls reach that own property
    directly. *)
Definition render (originalRender : JS value) : JS value :=
  own ← gets instanceRender;
  installed ←
    match own with
    | Some f => mret f
    | None =>
        static ← isUsingStaticRendering;
        f ← (if (static : bool) then mret OriginalRender else createReactiveRender);
        modify (set_instanceRender (Some f));;
        mret f
    end;
  match installed with
  | OriginalRender => originalRender
  | ReactiveRender => reactiveRender originalRender
  end.

(** The patched [prototype.componentDidMount]. *)
Definition componentDidMount (originalComponentDidMount : option (JS value))
  : JS value :=
  dev ← gets DEV;
  onProto ← gets didMountOnPrototype;
  if dev && negb onProto then
    throw (Err "[mobx-react] `observer(...).componentDidMount` must be defined on prototype.")
  else
    _ ← getAdministration;
    assign (set_mounted true);;
    emit Unregister;;
    r ← admin reaction;
    pending ← admin pendingStateVersion;
    committed ← admin stateVersion;
    (if isNull r || negb (bool_decide (pending = committed)) then
       t ← mintSymbol;
       assign (set_pendingStateVersion t);;
       pending' ← admin pendingStateVersion;
       callScheduleUpdate pending'
     else mret ());;
    match originalComponentDidMount with
    | Some f => f
    | None => mret VUndefined
    end.

(** The function mixed into [componentWillUnmount] by [patch]. *)
Definition componentWillUnmount : JS unit :=
  static ← isUsingStaticRendering;
  if (static : bool) then mret ()
  else
    _ ← getAdministration;
    r ← admin reaction;
    (match r with
     | Some r => emit (Dispose r)
     | None => mret ()
     end);;
    assign (set_reaction None);;
    assign (set_mounted false).

(** [x && set.add(x)] *)
Definition addIfTruthy (v : value) (ws : WeakSet) : JS WeakSet :=
  if truthy v then
    match weakAdd ws v with
    | Some ws' => mret ws'
    | None => throw (Err "TypeError: Invalid value used in weak set")
    end
  else mret ws.

(** [observerSCU(nextProps, nextState)] *)
Definition observerSCU (nextProps nextState : value) : JS bool :=
  static ← isUsingStaticRendering;
  (if (static : bool) then emit Warn else mret ());;
  thisProps ← propGet props;
  let propsChanged := negb (shallowEqual thisProps nextProps) in
  thisState ← propGet state;
  let stateChanged := negb (shallowEqual thisState nextState) in
  _ ← getAdministration;
  pending ← admin pendingStateVersion;
  committed ← admin stateVersion;
  let shouldUpdate :=
    propsChanged || stateChanged || negb (bool_decide (pending = committed)) in
  (if shouldUpdate then
     t ← mintSymbol;
     assign (set_pendingStateVersion t)
   else mret ());;
  (if propsChanged then
     ws ← admin changedVariables;
     ws' ← addIfTruthy nextProps ws;
     assign (set_changedVariables ws')
   else
     ws ← admin unchangedVariables;
     ws' ← addIfTruthy nextProps ws;
     assign (set_unchangedVariables ws'));;
  (if stateChanged then
     ws ← admin changedVariables;
     ws' ← addIfTruthy nextState ws;
     assign (set_changedVariables ws')
   else
     ws ← admin unchangedVariables;
     ws' ← addIfTruthy nextState ws;
     assign (set_unchangedVariables ws'));;
  mret shouldUpdate.

End Synchronizer.

(** ** The update-delivery store *)

(** A subscribed listener, known by its identity.  Calling it leaves the
    module; [setValue] returns the listeners it called, in call order. *)
Definition listener := nat.

Module MobxObserverStore.

Record t := mk {
  value : Symbol;
  (* [Set<() => void>]: insertion order, no duplicates *)
  listeners : list listener
}.

(** [constructor()] *)
Definition new : JS t :=
  v ← mintSymbol;
  mret (mk v []).

(** [this.listeners.forEach(listener => listener())] *)
Definition notifyListeners (st : t) : list listener :=
  listeners st.

(** [setValue(newValue)] *)
Definition setValue (newValue : Symbol) (st : t) : t * list listener :=
  if negb (bool_decide (value st = newValue)) then
    let st' := mk newValue (listeners st) in
    (st', notifyListeners st')
  else (st, []).

(** [getValue()] *)
Definition getValue (st : t) : Symbol := value st.

(** [subscribe(listener)]: [Set.prototype.add] *)
Definition subscribe (l : listener) (st : t) : t :=
  mk (value st)
     (if bool_decide (l ∈ listeners st) then listeners st
      else listeners st ++ [l]).

(** The function [subscribe] returns: [Set.prototype.delete] *)
Definition unsubscribe (l : listener) (st : t) : t :=
  mk (value st) (filter (λ l', l' ≠ l) (listeners st)).

End MobxObserverStore.

(** ** Wrapping a component: observer.tsx and the checks of
       [makeClassComponentObserver] *)

(** Constructors that can occur on a component's prototype chain. *)
Inductive ctor :=
| ReactComponent
| ReactPureComponent
| UserClass (n : nat).

Global Instance ctor_eq_dec : EqDecision ctor.
Proof. solve_decision. Defined.

(** What [prototype.shouldComponentUpdate] holds. *)
Inductive scuSlot :=
| ScuMissing            (* undefined (or another falsy value) *)
| ScuObserverSCU        (* observerSCU itself *)
| ScuOther.             (* any other function *)

Global Instance scuSlot_eq_dec : EqDecision scuSlot.
Proof. solve_decision. Defined.


Record IReactComponent := mkComponent {
  (* component.__proto__, component.__proto__.__proto__, ... *)
  protoChain : list ctor;
  (* component[isMobXReactObserverSymbol] is truthy *)
  isMobXReactObserver : bool;
  (* component["isMobxInjector"] === true *)
  isMobxInjector : bool;
  (* componentClass.displayName, componentClass.name *)
  classDisplayName : option string;
  className : string;
  (* prototype.componentWillReact is truthy *)
  componentWillReact : bool;
  shouldComponentUpdate : scuSlot;
  (* typeof prototype.render === "function" *)
  renderIsFunction : bool;
  (* the patches installed on the prototype so far *)
  hasSetScheduleUpdate : bool;
  hasObservableDescriptors : bool;
  hasPatchedRender : bool;
  hasPatchedDidMount : bool;
  hasPatchedWillUnmount : bool
}.


Definition set_shouldComponentUpdate (f : scuSlot) (c : IReactComponent) :=
  mkComponent (protoChain c) (isMobXReactObserver c) (isMobxInjector c)
    (classDisplayName c) (className c) (componentWillReact c) f
    (renderIsFunction c) (hasSetScheduleUpdate c) (hasObservableDescriptors c)
    (hasPatchedRender c) (hasPatchedDidMount c) (hasPatchedWillUnmount c).

Definition set_hasSetScheduleUpdate (c : IReactComponent) :=
  mkComponent (protoChain c) (isMobXReactObserver c) (isMobxInjector c)
    (classDisplayName c) (className c) (componentWillReact c)
    (shouldComponentUpdate c) (renderIsFunction c) true
    (hasObservableDescriptors c) (hasPatchedRender c) (hasPatchedDidMount c)
    (hasPatchedWillUnmount c).

Definition set_hasObservableDescriptors (c : IReactComponent) :=
  mkComponent (protoChain c) (isMobXReactObserver c) (isMobxInjector c)
    (classDisplayName c) (className c) (componentWillReact c)
    (shouldComponentUpdate c) (renderIsFunction c) (hasSetScheduleUpdate c)
    true (hasPatchedRender c) (hasPatchedDidMount c) (hasPatchedWillUnmount c).

Definition set_lifecyclePatched (c : IReactComponent) :=
  mkComponent (protoChain c) (isMobXReactObserver c) (isMobxInjector c)
    (classDisplayName c) (className c) (componentWillReact c)
    (shouldComponentUpdate c) (renderIsFunction c) (hasSetScheduleUpdate c)
    (hasObservableDescriptors c) true true true.

(** [getDisplayName(componentClass)] *)
Definition getDisplayName (c : IReactComponent) : string :=
  match classDisplayName c with
  | Some d => if bool_decide (d = "") then
                if bool_decide (className c = "") then "<component>" else className c
              else d
  | None => if bool_decide (className c = "") then "<component>" else className c
  end.

(** The [forwardRef] component [makeClassComponentObserver] returns: an
    exotic component object, not a class, named after the wrapped class. *)
Definition WrappedComponent (componentClass : IReactComponent) : IReactComponent :=
  {| protoChain := [];
     isMobXReactObserver := false;
     isMobxInjector := false;
     classDisplayName := None;
     className := getDisplayName componentClass;
     componentWillReact := false;
     shouldComponentUpdate := ScuMissing;
     renderIsFunction := false;
     hasSetScheduleUpdate := false;
     hasObservableDescriptors := false;
     hasPatchedRender := false;
     hasPatchedDidMount := false;
     hasPatchedWillUnmount := false |}.

(** [makeClassComponentObserver(componentClass)].  The class is patched in
    place: the first component of the result is the class as the call leaves
    it, the second is what the call returns or throws. *)
Definition makeClassComponentObserver (componentClass : IReactComponent)
  : IReactComponent * Completion IReactComponent :=
  let c1 := set_hasSetScheduleUpdate componentClass in
  if componentWillReact c1 then
    (c1, Abrupt (Err "The componentWillReact life-cycle event is no longer supported"))
  else
    let scu :=
      if negb (bool_decide (head (protoChain c1) = Some ReactPureComponent)) then
        match shouldComponentUpdate c1 with
        | ScuMissing => inl (set_shouldComponentUpdate ScuObserverSCU c1)
        | ScuOther =>
            inr (Err "It is not allowed to use shouldComponentUpdate in observer based components.")
        | ScuObserverSCU => inl c1
        end
      else inr (Err "It is not allowed to use PureComponent in observer.") in
    match scu with
    | inr e => (c1, Abrupt e)
    | inl c2 =>
        let c3 := set_hasObservableDescriptors c2 in
        if negb (renderIsFunction c3) then
          (c3, Abrupt (Err ("[mobx-react] class component (" ++ getDisplayName c3
                            ++ ") is missing `render` method.")%string))
        else
          let c4 := set_lifecyclePatched c3 in
          (c4, Normal (WrappedComponent c4))
    end.



(** ** A concrete shallow equality *)

(** Own enumerable properties of the objects: name and value of each. *)
Definition Heap := ref → list (string * value).

Fixpoint getField (k : string) (fields : list (string * value)) : option value :=
  match fields with
  | [] => None
  | (k', v) :: rest => if bool_decide (k' = k) then Some v else getField k rest
  end.

(** Modelled from the spec: [shallowEqual] of [./utils/utils], which is not
    part of the sources at hand; the glossary describes it as the structural
    comparison of immediate members only, one level deep.  Two values are
    shallowly equal when they are identical, or when both are objects with
    the same number of properties and every property of the first is a
    property of the second holding an identical value. *)
Definition shallowEqualIn (h : Heap) : ShallowEqual := λ objA objB,
  bool_decide (objA = objB) ||
  match objA, objB with
  | VObject a, VObject b =>
      bool_decide (length (h a) = length (h b)) &&
      forallb (λ kv, bool_decide (getField kv.1 (h b) = Some kv.2)) (h a)
  | _, _ => false
  end.

(** ** Histories of one instance *)

(** What the host framework, the reactive engine and user code can do with
    one component instance.  A render body is user code: a script of further
    operations that ends by returning or by throwing. *)
Inductive Op :=
| Read (k : key)                                   (* this.props, ... *)
| Write (k : key) (v : value)                      (* this.props = v, ... *)
| SetScheduleUpdate (cb : callback)
| ShouldComponentUpdate (nextProps nextState : value)
| Render (body : Script)
| DidMount
| WillUnmount
| Invalidate                                       (* the reaction's callback fires *)
| EnableStaticRendering (enable : bool)
with Script :=
| Return (v : value)
| Raise (e : any)
| Then (o : Op) (rest : Script).

Scheme Op_ind' := Induction for Op Sort Prop
  with Script_ind' := Induction for Script Sort Prop.
Combined Scheme Op_Script_ind from Op_ind', Script_ind'.

Section Histories.
Context `{ShallowEqual}.

(** [try { op } catch {}] *)
Definition attempt {A} (op : JS A) : JS unit :=
  tryCatch (op;; mret ()) (λ _, mret ()).

(** A disposed reaction no longer calls back. *)
Definition invalidate : JS unit :=
  a ← gets administration;
  match a ≫= reaction with
  | Some _ => onInvalidate
  | None => mret ()
  end.

Fixpoint runOp (o : Op) : JS unit :=
  match o with
  | Read k => propGet k;; mret ()
  | Write k v => propSet k v
  | SetScheduleUpdate cb => setScheduleUpdate cb
  | ShouldComponentUpdate nextProps nextState =>
      observerSCU nextProps nextState;; mret ()
  | Render body => render (runScript body);; mret ()
  | DidMount => componentDidMount None;; mret ()
  | WillUnmount => componentWillUnmount
  | Invalidate => invalidate
  | EnableStaticRendering b => modify (set_staticRendering b)
  end
with runScript (sc : Script) : JS value :=
  match sc with
  | Return v => mret v
  | Raise e => throw e
  | Then o rest => attempt (runOp o);; runScript rest
  end.

(** The state in which [reactiveRender], called in state [s], starts the
    render body: the reaction exists, its tracked scope is open and state
    changes are disallowed. *)
Definition reactiveEntry (s : State) : State :=
  let s1 := (getAdministration s).2 in
  let s2 :=
    match administration s1 ≫= reaction with
    | Some _ => s1
    | None =>
        ((r ← createReaction;
          assign (set_reaction (Some r));;
          m ← admin mounted;
          if negb (m : bool) then emit Register else mret ()) s1).2
    end in
  match administration s2 ≫= reaction with
  | Some r => set_allowStateChanges false (emit (TrackStart r) s2).2
  | None => s2
  end.


(** Which function a call of [render] reaches in state [s]. *)
Definition renderTarget (s : State) : installedRender :=
  match instanceRender s with
  | Some f => f
  | None => if staticRendering s then OriginalRender else ReactiveRender
  end.



End Histories.

(** The version fields agree with the staleness bit: both tokens were
    minted, the committed one no later than the pending one, and they differ
    exactly when the bit is set.  An instance without a record is not
    stale. *)
Definition Consistent (s : State) (stale : bool) : Prop :=
  match administration s with
  | Some a =>
      stateVersion a ≤ pendingStateVersion a
      ∧ pendingStateVersion a < symbols s
      ∧ (pendingStateVersion a = stateVersion a ↔ stale = false)
  | None => stale = false
  end.

(** ** Concrete instances used by the closed examples *)

(** Objects 1 and 2 are distinct objects with the same single property;
    object 3 has another one; every other object is empty. *)
Definition exHeap : Heap := λ r,
  match r with
  | 1 => [("a", VNull)]
  | 2 => [("a", VNull)]
  | 3 => [("b", VNull)]
  | _ => []
  end.

Definition exShallowEqual : ShallowEqual := shallowEqualIn exHeap.

(** An instance nothing has touched yet, in a development build. *)
Definition freshInstance : State :=
  {| administration := None;
     instanceRender := None;
     didMountOnPrototype := true;
     displayName := "Example";
     DEV := true;
     staticRendering := false;
     allowStateChanges := true;
     symbols := 0;
     reactions := 0;
     trace := [] |}.

(** The state a computation leaves behind. *)
Definition after {A} (m : JS A) (s : State) : State := (m s).2.

(** The instance after its state was set to object 1 and the update hook
    was then asked about object 1 as both next props and next state: object 1
    is marked as changed (for props) and as unchanged (for state). *)
Definition bothMarkedInstance : State :=
  {| administration :=
       Some {| reaction := None;
               scheduleUpdate := None;
               mounted := false;
               name := "Example";
               cachedProps := VUndefined;
               cachedState := VObject 1;
               cachedContext := VUndefined;
               pendingStateVersion := 2;
               stateVersion := 0;
               changedVariables := {[ 1 ]};
               unchangedVariables := {[ 1 ]} |};
     instanceRender := None;
     didMountOnPrototype := true;
     displayName := "Example";
     DEV := true;
     staticRendering := false;
     allowStateChanges := true;
     symbols := 3;
     reactions := 0;
     trace := [ReportChanged state; ReportObserved props; ReportObserved state] |}.

(** A rendered and mounted instance with callback 7 registered, right after
    its reaction was invalidated once: the pending version is ahead of the
    committed one. *)
Definition invalidatedInstance : State :=
  {| administration :=
       Some {| reaction := Some 0;
               scheduleUpdate := Some 7;
               mounted := true;
               name := "Example";
               cachedProps := VUndefined;
               cachedState := VUndefined;
               cachedContext := VUndefined;
               pendingStateVersion := 1;
               stateVersion := 0;
               changedVariables := ∅;
               unchangedVariables := ∅ |};
     instanceRender := Some ReactiveRender;
     didMountOnPrototype := true;
     displayName := "Example";
     DEV := true;
     staticRendering := false;
     allowStateChanges := true;
     symbols := 2;
     reactions := 1;
     trace := [NewReaction 0; Register; TrackStart 0; TrackEnd 0; Unregister;
               ScheduleUpdate 7 1] |}.

(** The instance of a component without state: props object 1, state
    [null], rendered and mounted with callback 7 registered, nothing
    pending. *)
Definition statelessInstance : State :=
  {| administration :=
       Some {| reaction := Some 0;
               scheduleUpdate := Some 7;
               mounted := true;
               name := "Example";
               cachedProps := VObject 1;
               cachedState := VNull;
               cachedContext := VUndefined;
               pendingStateVersion := 2;
               stateVersion := 2;
               changedVariables := ∅;
               unchangedVariables := ∅ |};
     instanceRender := Some ReactiveRender;
     didMountOnPrototype := true;
     displayName := "Example";
     DEV := true;
     staticRendering := false;
     allowStateChanges := true;
     symbols := 3;
     reactions := 1;
     trace := [ReportChanged props; ReportChanged state; NewReaction 0;
               Register; TrackStart 0; TrackEnd 0; Unregister] |}.

(** A mounted instance in static rendering mode. *)
Definition staticMountedInstance : State :=
  {| administration :=
       Some {| reaction := None;
               scheduleUpdate := None;
               mounted := true;
               name := "Example";
               cachedProps := VUndefined;
               cachedState := VUndefined;
               cachedContext := VUndefined;
               pendingStateVersion := 1;
               stateVersion := 0;
               changedVariables := ∅;
               unchangedVariables := ∅ |};
     instanceRender := None;
     didMountOnPrototype := true;
     displayName := "Example";
     DEV := true;
     staticRendering := true;
     allowStateChanges := true;
     symbols := 2;
     reactions := 0;
     trace := [Unregister] |}.

(** A store with listener 1 subscribed. *)
Definition exStore : MobxObserverStore.t :=
  MobxObserverStore.subscribe 1 (MobxObserverStore.mk 0 []).

(** A class component, directly below [React.Component], with a [render]
    method and no hooks of its own. *)
Definition exClass : IReactComponent :=
  {| protoChain := [ReactComponent];
     isMobXReactObserver := false;
     isMobxInjector := false;
     classDisplayName := None;
     className := "Example";
     componentWillReact := false;
     shouldComponentUpdate := ScuMissing;
     renderIsFunction := true;
     hasSetScheduleUpdate := false;
     hasObservableDescriptors := false;
     hasPatchedRender := false;
     hasPatchedDidMount := false;
     hasPatchedWillUnmount := false |}.


(** An instance with callback 7 registered that has been rendered once
    and is not mounted yet. *)
Definition renderedInstance : State :=
  {| administration :=
       Some {| reaction := Some 0;
               scheduleUpdate := Some 7;
               mounted := false;
               name := "Example";
               cachedProps := VUndefined;
               cachedState := VUndefined;
               cachedContext := VUndefined;
               pendingStateVersion := 0;
               stateVersion := 0;
               changedVariables := ∅;
               unchangedVariables := ∅ |};
     instanceRender := Some ReactiveRender;
     didMountOnPrototype := true;
     displayName := "Example";
     DEV := true;
     staticRendering := false;
     allowStateChanges := true;
     symbols := 1;
     reactions := 1;
     trace := [NewReaction 0; Register; TrackStart 0; TrackEnd 0] |}.

(** An untouched instance, in a development build, that carries a
    [componentDidMount] of its own. *)
Definition ownHookInstance : State :=
  {| administration := None;
     instanceRender := None;
     didMountOnPrototype := false;
     displayName := "Example";
     DEV := true;
     staticRendering := false;
     allowStateChanges := true;
     symbols := 0;
     reactions := 0;
     trace := [] |}.

(** A class component directly below [React.PureComponent]. *)
Definition exPureClass : IReactComponent :=
  {| protoChain := [ReactPureComponent];
     isMobXReactObserver := false;
     isMobxInjector := false;
     classDisplayName := None;
     className := "Pure";
     componentWillReact := false;
     shouldComponentUpdate := ScuMissing;
     renderIsFunction := true;
     hasSetScheduleUpdate := false;
     hasObservableDescriptors := false;
     hasPatchedRender := false;
     hasPatchedDidMount := false;
     hasPatchedWillUnmount := false |}.

(** ** Notions used by the further properties *)

(** The calls of the update callback among the events [events]: callback and
    snapshot of each, in call order. *)
Definition scheduledUpdates (events : list Event) : list (callback * Symbol) :=
  omap (λ e, match e with
             | ScheduleUpdate cb snapshot => Some (cb, snapshot)
             | _ => None
             end) events.

(** [s'] continues [s]: no symbol and no reaction identity is handed out
    again, no recorded call is retracted, the administration record is not
    taken away, the [render] property defined on the instance is not
    replaced, and what was fixed outside the module (the permission to change
    state, the build flag, the prototype link of [componentDidMount], the
    display name) is as it was. *)
Definition Continues (s s' : State) : Prop :=
  symbols s ≤ symbols s'
  ∧ reactions s ≤ reactions s'
  ∧ (∃ events, trace s' = trace s ++ events)
  ∧ (is_Some (administration s) → is_Some (administration s'))
  ∧ (∀ f, instanceRender s = Some f → instanceRender s' = Some f)
  ∧ allowStateChanges s' = allowStateChanges s
  ∧ DEV s' = DEV s
  ∧ didMountOnPrototype s' = didMountOnPrototype s
  ∧ displayName s' = displayName s.

(** One call of a method of the store, or of the function [subscribe]
    returned. *)
Inductive StoreCall :=
| CallSetValue (newValue : Symbol)
| CallSubscribe (l : listener)
| CallUnsubscribe (l : listener).

(** The store after the call, and the listeners the call called. *)
Definition storeCall (c : StoreCall) (st : MobxObserverStore.t)
  : MobxObserverStore.t * list listener :=
  match c with
  | CallSetValue newValue => MobxObserverStore.setValue newValue st
  | CallSubscribe l => (MobxObserverStore.subscribe l st, [])
  | CallUnsubscribe l => (MobxObserverStore.unsubscribe l st, [])
  end.

(** The store after a sequence of calls. *)
Definition storeCalls (cs : list StoreCall) (st : MobxObserverStore.t)
  : MobxObserverStore.t :=
  foldl (λ st c, (storeCall c st).1) st cs.

(** * Properties *)

(** Symbolic execution of [JS] code on a state given by its fields. *)
Ltac js_run :=
  unfold isUsingStaticRendering, callScheduleUpdate, createReaction, track,
    attempt, _allowStateChanges, after in *;
  unfold admin, assign, emit in *;
  unfold getAdministration, modify, gets, mintSymbol, throw, tryCatch,
    tryFinally, mbind, JS_bind, mret, JS_ret in *;
  cbn [fst snd fmap option_fmap option_map option_bind option_ret
       administration instanceRender didMountOnPrototype displayName DEV
       staticRendering allowStateChanges symbols reactions trace
       set_administration set_instanceRender set_staticRendering
       set_allowStateChanges set_symbols set_reactions set_trace
       reaction scheduleUpdate mounted name cachedProps cachedState
       cachedContext pendingStateVersion stateVersion changedVariables
       unchangedVariables cached set_reaction set_scheduleUpdate set_mounted
       set_cached set_pendingStateVersion set_stateVersion
       set_changedVariables set_unchangedVariables negb andb orb
       truthy truthyAny isNull] in *.

(** Case analysis on the tests the code branches on. *)
Ltac js_case :=
  match goal with
  | |- context [weakHas ?ws ?x] => destruct (weakHas ws x) eqn:?
  | |- context [@shallowEqual ?H ?x ?y] => destruct (@shallowEqual H x y) eqn:?
  | |- context [bool_decide ?P] => destruct (bool_decide P) eqn:?
  end; js_run.


(** Puts the state and the record [getAdministration] hands out into
    constructor form. *)
Ltac js_open s Hg :=
  destruct s as [[?a|] ?ir ?onp ?dn ?dev ?st ?asc ?sy ?re ?tr];
  cbv beta iota zeta delta [getAdministration administration symbols
       displayName set_symbols set_administration] in Hg;
  injection Hg as <- <-.

Lemma getAdministration_Some (s s0 : State) (a : ObserverAdministration) :
  getAdministration s = (Normal a, s0) → administration s0 = Some a.
Proof. intros Hg. js_open s Hg; reflexivity. Qed.

Lemma getAdministration_total (s : State) :
  ∃ a s0, getAdministration s = (Normal a, s0).
Proof.
  unfold getAdministration. destruct (administration s); eauto.
Qed.

Lemma getAdministration_trace (s s0 : State) (a : ObserverAdministration) :
  getAdministration s = (Normal a, s0) →
  trace s0 = trace s ∧ staticRendering s0 = staticRendering s
  ∧ symbols s ≤ symbols s0.
Proof. intros Hg. js_open s Hg; cbn; auto with lia. Qed.

(** Moves a goal about a run from [s] to the state [s0] in which the
    administration record exists, and puts [s0] into constructor form. *)
Ltac js_enter s s0 Hg :=
  let Ha := fresh "Ha" in
  pose proof (getAdministration_Some _ _ _ Hg) as Ha;
  repeat match goal with
         | E : context [?f s] |- _ =>
             lazymatch E with Hg => fail | _ => idtac end;
             replace (f s) with (f s0) in E by (js_open s Hg; reflexivity)
         end;
  repeat match goal with
         | |- context [?f s] =>
             replace (f s) with (f s0)
               by (js_open s Hg;
                   repeat match goal with b : bool |- _ => destruct b end;
                   try match goal with
                       | E : _ = _ |- _ =>
                           cbn [staticRendering DEV didMountOnPrototype
                                negb andb] in E;
                           discriminate E
                       end;
                   reflexivity)
         end;
  clear Hg; try clear s;
  destruct s0 as [?adm ?ir ?onp ?dn ?dev ?st ?asc ?sy ?re ?tr];
  cbn [administration] in Ha; subst.


Lemma weakHas_empty (v : value) : weakHas ∅ v = false.
Proof. destruct v; reflexivity. Qed.

(** Closes goals about [cached] and [set_cached] by cases on the keys. *)
Ltac solve_cached :=
  intros;
  repeat match goal with
         | k : key |- _ => destruct k
         end;
  try reflexivity; congruence.

Section Properties.
Context `{ShallowEqual}.

(** ** C1: writes through the observable input bridge *)


(** ** C2: the reaction's invalidation callback *)

(** C2 (as amended).  When the reaction's callback fires while the pending
    and the committed version are equal, a fresh pending version token is
    minted and, if the instance is mounted and a callback is registered, that
    callback is called once with the new token.  When the two versions
    already differ, the callback returns at once: nothing is minted and
    nothing is called. *)
Theorem onInvalidate_cases (s : State) (a : ObserverAdministration) :
  administration s = Some a →
  if bool_decide (pendingStateVersion a = stateVersion a) then
    ∃ s',
      onInvalidate s = (Normal (), s')
      ∧ administration s' = Some (set_pendingStateVersion (symbols s) a)
      ∧ symbols s' = S (symbols s)
      ∧ trace s'
        = trace s
          ++ (if mounted a then
                match scheduleUpdate a with
                | Some cb => [ScheduleUpdate cb (symbols s)]
                | None => []
                end
              else [])
  else onInvalidate s = (Normal (), s).
Proof.
  intros Ha.
  destruct s as [adm ir onp dn dev st asc sy re tr]; cbn in Ha; subst adm.
  unfold onInvalidate; js_run.
  destruct (bool_decide (pendingStateVersion a = stateVersion a)); js_run;
    [|reflexivity].
  destruct (mounted a); js_run;
    [destruct (scheduleUpdate a); js_run|];
    eexists; (split; [reflexivity|]); js_run.
  all: rewrite ?app_nil_r; auto.
Qed.

(** ** C3: the update-decision hook *)

(** C3 (as amended).  The hook returns
    [propsChanged || stateChanged || pending ≠ committed], the two change
    flags coming from separate shallow comparisons with the cached props and
    the cached state; it mints a fresh pending version token exactly when it
    returns [true]; and each proposed input that is an object is added to
    [changedVariables] if it changed and to [unchangedVariables] if it did
    not, while a proposed input that is [null] or [undefined] is added to
    neither set. *)
Theorem observerSCU_cases (nextProps nextState : value) (s s0 : State)
    (a : ObserverAdministration) :
  getAdministration s = (Normal a, s0) →
  let propsChanged := negb (shallowEqual (cachedProps a) nextProps) in
  let stateChanged := negb (shallowEqual (cachedState a) nextState) in
  let shouldUpdate :=
    propsChanged || stateChanged
    || negb (bool_decide (pendingStateVersion a = stateVersion a)) in
  ∃ a' s',
    observerSCU nextProps nextState s = (Normal shouldUpdate, s')
    ∧ administration s' = Some a'
    ∧ stateVersion a' = stateVersion a
    ∧ (if shouldUpdate then
         pendingStateVersion a' = symbols s0 ∧ symbols s' = S (symbols s0)
       else
         pendingStateVersion a' = pendingStateVersion a
         ∧ symbols s' = symbols s0)
    ∧ (∀ r, r ∈ changedVariables a' ↔
            r ∈ changedVariables a
            ∨ (propsChanged = true ∧ nextProps = VObject r)
            ∨ (stateChanged = true ∧ nextState = VObject r))
    ∧ (∀ r, r ∈ unchangedVariables a' ↔
            r ∈ unchangedVariables a
            ∨ (propsChanged = false ∧ nextProps = VObject r)
            ∨ (stateChanged = false ∧ nextState = VObject r))
    ∧ trace s'
      = trace s ++ (if staticRendering s then [Warn] else [])
        ++ [ReportObserved props; ReportObserved state].
Proof.
  intros Hg propsChanged stateChanged shouldUpdate.
  subst shouldUpdate propsChanged stateChanged.
  js_enter s s0 Hg. unfold observerSCU, propGet; js_run.
  destruct st; js_run.
  all: repeat js_case.
  all: destruct nextProps, nextState; unfold addIfTruthy, truthy, weakAdd; js_run.
  all: eexists _, _; (split; [reflexivity|]); (split; [reflexivity|]).
  all: js_run.
  all: repeat split; auto; try (rewrite <- ?app_assoc; reflexivity).
  all: set_solver.
Qed.

(** ** C4: mount *)


(** ** C7: unmount *)

(** C7 (as amended).  Outside static rendering mode, the function mixed into
    [componentWillUnmount] disposes the reaction if one exists, clears the
    reaction handle and sets [mounted] to [false]; it never raises, also when
    the reaction is absent.  In static rendering mode it returns at once and
    leaves the instance as it is, whatever [mounted] holds. *)
Theorem componentWillUnmount_cases (s s0 : State) (a : ObserverAdministration) :
  getAdministration s = (Normal a, s0) →
  if staticRendering s then componentWillUnmount s = (Normal (), s)
  else
    ∃ s',
      componentWillUnmount s = (Normal (), s')
      ∧ administration s' = Some (set_mounted false (set_reaction None a))
      ∧ symbols s' = symbols s0
      ∧ trace s'
        = trace s ++ match reaction a with
                     | Some r => [Dispose r]
                     | None => []
                     end.
Proof.
  intros Hg.
  destruct (staticRendering s) eqn:Est.
  - unfold componentWillUnmount; js_run. rewrite Est. reflexivity.
  - js_enter s s0 Hg. cbn [staticRendering] in Est; subst.
    unfold componentWillUnmount; js_run.
    destruct (reaction a) eqn:Er; js_run;
      eexists; (split; [reflexivity|]); js_run; rewrite ?app_nil_r; auto.
Qed.

(** ** C10: registering the update callback *)

(** C10 (as amended).  Outside static rendering mode, [setScheduleUpdate]
    stores the callback on the administration record and, when the instance
    is mounted and the pending version differs from the committed one, calls
    it at once, exactly once, with the current pending token; when the
    instance is not mounted or the versions are equal it calls nothing.  In
    static rendering mode it returns at once: the callback is neither stored
    nor called. *)
Theorem setScheduleUpdate_cases (cb : callback) (s s0 : State)
    (a : ObserverAdministration) :
  getAdministration s = (Normal a, s0) →
  if staticRendering s then setScheduleUpdate cb s = (Normal (), s)
  else
    ∃ s',
      setScheduleUpdate cb s = (Normal (), s')
      ∧ administration s' = Some (set_scheduleUpdate (Some cb) a)
      ∧ symbols s' = symbols s0
      ∧ trace s'
        = trace s
          ++ (if negb (bool_decide (pendingStateVersion a = stateVersion a))
                 && mounted a
              then [ScheduleUpdate cb (pendingStateVersion a)]
              else []).
Proof.
  intros Hg.
  destruct (staticRendering s) eqn:Est.
  - unfold setScheduleUpdate; js_run. rewrite Est. reflexivity.
  - js_enter s s0 Hg. cbn [staticRendering] in Est; subst.
    unfold setScheduleUpdate; js_run.
    destruct (bool_decide (pendingStateVersion a = stateVersion a));
      destruct (mounted a); js_run;
      eexists; (split; [reflexivity|]); js_run; rewrite ?app_nil_r; auto.
Qed.

(** ** C6: the tracked render *)

(** [reactiveRender] runs the render body exactly once, in the entry
    state. *)
Lemma reactiveRender_body_once (f : JS value) (s : State) :
  reactiveRender f s = reactiveRender (λ _, f (reactiveEntry s)) s.
Proof.
  destruct s as [[a|] ir onp dn dev st asc sy re tr];
    unfold reactiveRender, reactiveEntry; js_run.
  - destruct (reaction a) eqn:Er; js_run; rewrite ?Er; js_run.
    + reflexivity.
    + destruct (mounted a); js_run; reflexivity.
  - reflexivity.
Qed.

(** At the entry of the body the record and its reaction exist and the
    tracked scope of that reaction has just been opened. *)
Lemma reactiveEntry_reaction (s : State) :
  ∃ a r tr,
    administration (reactiveEntry s) = Some a
    ∧ reaction a = Some r
    ∧ trace (reactiveEntry s) = tr ++ [TrackStart r].
Proof.
  destruct s as [[a|] ir onp dn dev st asc sy re tr];
    unfold reactiveEntry; js_run.
  - destruct (reaction a) eqn:Er; js_run; rewrite ?Er; js_run.
    + eauto 10.
    + destruct (mounted a); js_run; eexists _, _, _; eauto.
  - eexists _, _, _; eauto.
Qed.

(** A render that completes commits the pending version, after the tracked
    scope has been closed. *)
Lemma reactiveRender_commits (f : JS value) (s sE : State) (v : value)
    (aE : ObserverAdministration) :
  f (reactiveEntry s) = (Normal v, sE) →
  administration sE = Some aE →
  ∃ r s',
    reactiveRender f s = (Normal v, s')
    ∧ administration s' = Some (set_stateVersion (pendingStateVersion aE) aE)
    ∧ symbols s' = symbols sE
    ∧ trace s' = trace sE ++ [TrackEnd r].
Proof.
  intros Hf HaE. rewrite reactiveRender_body_once, Hf.
  destruct sE as [admE irE onpE dnE devE stE ascE syE reE trE];
    cbn in HaE; subst admE.
  destruct s as [[a|] ir onp dn dev st asc sy re tr];
    unfold reactiveRender; js_run.
  - destruct (reaction a) eqn:Er; js_run; rewrite ?Er; js_run.
    + eexists _, _; split; [reflexivity|]; js_run; auto.
    + destruct (mounted a); js_run;
        eexists _, _; (split; [reflexivity|]); js_run; auto.
  - eexists _, _; split; [reflexivity|]; js_run; auto.
Qed.

(** A render that throws a truthy value leaves the committed version alone
    and rethrows that value once the tracked scope has been closed. *)
Lemma reactiveRender_rethrows (f : JS value) (s sE : State) (e : any) :
  f (reactiveEntry s) = (Abrupt e, sE) →
  truthyAny e = true →
  ∃ r s',
    reactiveRender f s = (Abrupt e, s')
    ∧ administration s' = administration sE
    ∧ symbols s' = symbols sE
    ∧ trace s' = trace sE ++ [TrackEnd r].
Proof.
  intros Hf He. rewrite reactiveRender_body_once, Hf.
  destruct s as [[a|] ir onp dn dev st asc sy re tr];
    unfold reactiveRender; js_run.
  - destruct (reaction a) eqn:Er; js_run; rewrite ?Er; js_run; rewrite ?He.
    + eexists _, _; split; [reflexivity|]; js_run; auto.
    + destruct (mounted a); js_run; rewrite ?He;
        eexists _, _; (split; [reflexivity|]); js_run; auto.
  - rewrite He. eexists _, _; split; [reflexivity|]; js_run; auto.
Qed.

(** A render that throws a falsy value leaves the committed version alone,
    too, but the value is not rethrown: it fails the test [if (error)]. *)
Lemma reactiveRender_swallows_falsy (f : JS value) (s sE : State) (e : any) :
  f (reactiveEntry s) = (Abrupt e, sE) →
  truthyAny e = false →
  ∃ r s',
    reactiveRender f s = (Normal VUndefined, s')
    ∧ administration s' = administration sE
    ∧ symbols s' = symbols sE
    ∧ trace s' = trace sE ++ [TrackEnd r].
Proof.
  intros Hf He. rewrite reactiveRender_body_once, Hf.
  destruct s as [[a|] ir onp dn dev st asc sy re tr];
    unfold reactiveRender; js_run.
  - destruct (reaction a) eqn:Er; js_run; rewrite ?Er; js_run; rewrite ?He.
    + eexists _, _; split; [reflexivity|]; js_run; auto.
    + destruct (mounted a); js_run; rewrite ?He;
        eexists _, _; (split; [reflexivity|]); js_run; auto.
  - rewrite He. eexists _, _; split; [reflexivity|]; js_run; auto.
Qed.

(** C6 (the defect).  A render function that executes [throw null] or
    [throw undefined] does not make [reactiveRender] throw: in whatever state
    it is called, [reactiveRender] completes normally and returns
    [undefined], as if the render had produced it. *)
Theorem reactiveRender_swallows_null (s : State) :
  (reactiveRender (throw (Val VNull)) s).1 = Normal VUndefined
  ∧ (reactiveRender (throw (Val VUndefined)) s).1 = Normal VUndefined.
Proof.
  split.
  - destruct (reactiveRender_swallows_falsy (throw (Val VNull)) s
                (reactiveEntry s) (Val VNull) eq_refl eq_refl)
      as (r & s' & -> & _).
    reflexivity.
  - destruct (reactiveRender_swallows_falsy (throw (Val VUndefined)) s
                (reactiveEntry s) (Val VUndefined) eq_refl eq_refl)
      as (r & s' & -> & _).
    reflexivity.
Qed.

(** ** C9: the version tokens and staleness *)

Lemma bool_decide_refl (n : nat) : bool_decide (n = n) = true.
Proof. by apply bool_decide_eq_true_2. Qed.

(** [x && set.add(x)] never raises for the values at hand. *)
Lemma addIfTruthy_run (v : value) (ws : WeakSet) (s : State) :
  addIfTruthy v ws s
  = (Normal match v with VObject r => {[ r ]} ∪ ws | _ => ws end, s).
Proof. destruct v; reflexivity. Qed.

(** Closes the arithmetic left by a step that keeps or mints tokens. *)
Ltac consistent_solve :=
  try match goal with
      | E : weakHas ∅ _ = true |- _ =>
          rewrite weakHas_empty in E; discriminate E
      end;
  unfold Consistent in *; do 2 js_run;
  repeat match goal with
         | H : _ ∧ _ |- _ => destruct H
         | H : _ ↔ _ |- _ => destruct H
         | |- context [bool_decide ?P] => destruct (bool_decide_reflect P)
         | H : context [?b = false] |- _ => is_var b; destruct b
         | |- context [?b = false] => is_var b; destruct b
         | |- context [if ?b then _ else _] => is_var b; destruct b
         | |- context [orb ?b _] => is_var b; destruct b
         | |- context [orb _ ?b] => is_var b; destruct b
         end;
  cbn [negb andb orb] in *;
  repeat split; intros; js_run; try discriminate; try lia; try tauto;
  try (exfalso; intuition lia).

Lemma getAdministration_consistent (s : State) (stale : bool) :
  Consistent s stale → Consistent (getAdministration s).2 stale.
Proof.
  destruct s as [[a|] ir onp dn dev st asc sy re tr]; intros Hc;
    consistent_solve.
Qed.








Lemma bind_ret_state {A} (m : JS A) (s : State) :
  ((m;; mret ()) s).2 = (m s).2.
Proof. js_run. destruct (m s) as [[x|e] s']; reflexivity. Qed.

Lemma attempt_then {A B} (m : JS A) (k : JS B) (s : State) :
  (attempt m;; k) s = k (m s).2.
Proof. js_run. destruct (m s) as [[x|e] s']; reflexivity. Qed.

Lemma render_original (f : JS value) (s : State) :
  renderTarget s = OriginalRender →
  render f s = f (set_instanceRender (Some OriginalRender) s).
Proof.
  destruct s as [adm [[]|] onp dn dev [] asc sy re tr];
    unfold renderTarget; cbn; intros E; try discriminate E; reflexivity.
Qed.

Lemma render_reactive (f : JS value) (s : State) :
  renderTarget s = ReactiveRender →
  render f s = reactiveRender f (set_instanceRender (Some ReactiveRender) s).
Proof.
  destruct s as [[a|] [[]|] onp dn dev [] asc sy re tr];
    unfold renderTarget; cbn; intros E; try discriminate E; reflexivity.
Qed.







End Properties.

(** ** C5: the update-delivery store *)

(** C5 (as amended).  [setValue(token)] replaces the stored token and calls
    every subscribed listener, once each and in subscription order, if and
    only if [token] differs from the stored token; otherwise it changes
    nothing and calls nobody.  Either way [getValue] then returns [token].
    Hence two calls of [setValue] with the same token call each subscribed
    listener exactly once in total when the token differs from the one stored
    before the first call, and not at all when it is that token; the second
    call never calls anybody. *)
Theorem setValue_cases (token : Symbol) (st : MobxObserverStore.t) :
  let '(st1, called1) := MobxObserverStore.setValue token st in
  let '(st2, called2) := MobxObserverStore.setValue token st1 in
  (if bool_decide (MobxObserverStore.value st = token) then
     st1 = st ∧ called1 = []
   else
     st1 = MobxObserverStore.mk token (MobxObserverStore.listeners st)
     ∧ called1 = MobxObserverStore.listeners st)
  ∧ MobxObserverStore.getValue st1 = token
  ∧ st2 = st1
  ∧ called2 = []
  ∧ called1 ++ called2
    = if bool_decide (MobxObserverStore.value st = token) then []
      else MobxObserverStore.listeners st.
Proof.
  unfold MobxObserverStore.setValue, MobxObserverStore.getValue,
    MobxObserverStore.notifyListeners.
  destruct st as [v ls]; cbn [MobxObserverStore.value MobxObserverStore.listeners].
  destruct (bool_decide_reflect (v = token)) as [->|Hne];
    cbn [negb MobxObserverStore.value MobxObserverStore.listeners];
    rewrite bool_decide_refl;
    cbn [negb MobxObserverStore.value MobxObserverStore.listeners];
    rewrite ?app_nil_r; auto 10.
Qed.

(** Subscribing lists the listener, once; the function [subscribe] returns
    removes it again. *)
Lemma subscribe_listed (l : listener) (st : MobxObserverStore.t) :
  l ∈ MobxObserverStore.listeners (MobxObserverStore.subscribe l st)
  ∧ (NoDup (MobxObserverStore.listeners st) →
     NoDup (MobxObserverStore.listeners (MobxObserverStore.subscribe l st))).
Proof.
  unfold MobxObserverStore.subscribe; cbn.
  case_bool_decide as Hin; split; auto.
  - set_solver.
  - intros Hnd. apply NoDup_app. repeat split; auto.
    + intros x Hx Hx'. apply list_elem_of_singleton in Hx'. by subst.
    + apply NoDup_singleton.
Qed.

Lemma unsubscribe_unlisted (l : listener) (st : MobxObserverStore.t) :
  l ∉ MobxObserverStore.listeners (MobxObserverStore.unsubscribe l st).
Proof.
  unfold MobxObserverStore.unsubscribe; cbn.
  rewrite list_elem_of_filter. tauto.
Qed.

(** ** C8: configuration errors at wrap time *)



(** * Closed examples *)

(** ** The example instances are reachable through the component's hooks *)

Lemma bothMarkedInstance_reachable :
  after (@observerSCU exShallowEqual (VObject 1) (VObject 1))
    (after (@propSet exShallowEqual state (VObject 1)) freshInstance)
  = bothMarkedInstance.
Proof. vm_compute. reflexivity. Qed.

Lemma invalidatedInstance_reachable :
  after onInvalidate
    (after (setScheduleUpdate 7)
       (after (componentDidMount None)
          (after (render (mret VNull)) freshInstance)))
  = invalidatedInstance.
Proof. vm_compute. reflexivity. Qed.

Lemma statelessInstance_reachable :
  after (setScheduleUpdate 7)
    (after (componentDidMount None)
       (after (render (mret VNull))
          (after (@propSet exShallowEqual state VNull)
             (after (@propSet exShallowEqual props (VObject 1))
                freshInstance))))
  = statelessInstance.
Proof. vm_compute. reflexivity. Qed.

Lemma staticMountedInstance_reachable :
  after (componentDidMount None) (set_staticRendering true freshInstance)
  = staticMountedInstance.
Proof. vm_compute. reflexivity. Qed.

(** ** Inputs at which the statements above apply *)


Lemma onInvalidate_cases_witness :
  ∃ a,
    administration statelessInstance = Some a
    ∧ ∃ s',
        onInvalidate statelessInstance = (Normal (), s')
        ∧ administration s' = Some (set_pendingStateVersion 3 a)
        ∧ trace s' = trace statelessInstance ++ [ScheduleUpdate 7 3].
Proof.
  eexists. split; [reflexivity|].
  destruct (onInvalidate_cases statelessInstance _ eq_refl)
    as (s' & Hrun & Ha' & _ & Ht).
  exists s'. auto.
Defined.

Lemma observerSCU_cases_witness :
  ∃ a,
    getAdministration statelessInstance = (Normal a, statelessInstance)
    ∧ ∃ a' s',
        @observerSCU exShallowEqual (VObject 2) VNull statelessInstance
        = (Normal false, s')
        ∧ administration s' = Some a'
        ∧ pendingStateVersion a' = pendingStateVersion a.
Proof.
  eexists. split; [reflexivity|].
  destruct (@observerSCU_cases exShallowEqual (VObject 2) VNull
              statelessInstance statelessInstance _ eq_refl)
    as (a' & s' & Hrun & Ha' & _ & Hp & _).
  exists a', s'. repeat split; [exact Hrun|exact Ha'|exact (proj1 Hp)].
Defined.


Lemma componentWillUnmount_cases_witness :
  ∃ a,
    getAdministration invalidatedInstance = (Normal a, invalidatedInstance)
    ∧ ∃ s',
        componentWillUnmount invalidatedInstance = (Normal (), s')
        ∧ administration s' = Some (set_mounted false (set_reaction None a))
        ∧ trace s' = trace invalidatedInstance ++ [Dispose 0].
Proof.
  eexists. split; [reflexivity|].
  destruct (componentWillUnmount_cases invalidatedInstance _ _ eq_refl)
    as (s' & Hrun & Ha' & _ & Ht).
  exists s'. auto.
Defined.

Lemma setScheduleUpdate_cases_witness :
  ∃ a,
    getAdministration invalidatedInstance = (Normal a, invalidatedInstance)
    ∧ ∃ s',
        setScheduleUpdate 9 invalidatedInstance = (Normal (), s')
        ∧ administration s' = Some (set_scheduleUpdate (Some 9) a)
        ∧ trace s' = trace invalidatedInstance ++ [ScheduleUpdate 9 1].
Proof.
  eexists. split; [reflexivity|].
  destruct (setScheduleUpdate_cases 9 invalidatedInstance _ _ eq_refl)
    as (s' & Hrun & Ha' & _ & Ht).
  exists s'. auto.
Defined.



(** ** Inputs at which the claims, as first stated, fail *)


(** C2 as stated has the callback mint a token whenever it fires.  On
    [invalidatedInstance], which is mounted, has callback 7 registered and is
    already stale, the callback changes nothing: no token is minted and
    callback 7 is not called. *)
Lemma onInvalidate_always_mints_counterexample :
  onInvalidate invalidatedInstance = (Normal (), invalidatedInstance)
  ∧ ¬ (symbols (after onInvalidate invalidatedInstance)
       = S (symbols invalidatedInstance))
  ∧ ¬ (∃ t, trace (after onInvalidate invalidatedInstance)
            = trace invalidatedInstance ++ [ScheduleUpdate 7 t]).
Proof.
  split; [reflexivity|]. split.
  - vm_compute. discriminate.
  - intros [t Ht]. vm_compute in Ht. discriminate Ht.
Qed.

(** C3 as stated has every proposed input registered in one of the two
    sets.  For [statelessInstance] the hook is asked about props object 2
    (shallowly equal to the cached object 1) and state [null] (the cached
    state): neither changed, the hook returns [false], object 2 is registered
    as unchanged, and [null] is registered nowhere. *)
Lemma observerSCU_registers_every_input_counterexample :
  let s := statelessInstance in
  let s' := after (@observerSCU exShallowEqual (VObject 2) VNull) s in
  (@observerSCU exShallowEqual (VObject 2) VNull s).1 = Normal false
  ∧ ∃ a',
      administration s' = Some a'
      ∧ weakHas (unchangedVariables a') (VObject 2) = true
      ∧ ¬ (weakHas (unchangedVariables a') VNull = true
           ∨ weakHas (changedVariables a') VNull = true).
Proof.
  intros s s'. split; [vm_compute; reflexivity|].
  eexists. split; [vm_compute; reflexivity|].
  split; [vm_compute; reflexivity|].
  intros [Hc|Hc]; discriminate Hc.
Qed.

(** C5 as stated has two calls of [setValue] with the same token call one
    listener in total.  With the token the store already holds, read through
    [getValue], neither call notifies the subscribed listener. *)
Lemma setValue_twice_counterexample :
  let token := MobxObserverStore.getValue exStore in
  let r1 := MobxObserverStore.setValue token exStore in
  let r2 := MobxObserverStore.setValue token r1.1 in
  MobxObserverStore.listeners exStore = [1]
  ∧ r1.2 ++ r2.2 = []
  ∧ length (r1.2 ++ r2.2) ≠ 1.
Proof. vm_compute. repeat split; discriminate. Qed.

(** C7 as stated has unmount leave [mounted = false].  In static rendering
    mode the mixed-in function returns at once: [staticMountedInstance], whose
    reaction is absent, is still marked as mounted afterwards. *)
Lemma componentWillUnmount_static_counterexample :
  let s' := after componentWillUnmount staticMountedInstance in
  ∃ a',
    administration s' = Some a'
    ∧ reaction a' = None
    ∧ mounted a' = true
    ∧ ¬ (mounted a' = false).
Proof.
  intros s'. eexists. split; [reflexivity|].
  repeat split. discriminate.
Qed.

(** C10 as stated has registration store the callback.  In static rendering
    mode [setScheduleUpdate] returns at once: the record of
    [staticMountedInstance] holds no callback afterwards, although the
    instance is mounted and stale. *)
Lemma setScheduleUpdate_static_counterexample :
  let s' := after (setScheduleUpdate 7) staticMountedInstance in
  ∃ a',
    administration s' = Some a'
    ∧ mounted a' = true
    ∧ pendingStateVersion a' ≠ stateVersion a'
    ∧ scheduleUpdate a' = None
    ∧ ¬ (scheduleUpdate a' = Some 7)
    ∧ trace s' = trace staticMountedInstance.
Proof.
  intros s'. eexists. split; [reflexivity|].
  repeat split; discriminate.
Qed.

(** * Further properties of the code *)

Section Bridge.
Context `{ShallowEqual}.

(** ** Reads and writes of the observable inputs *)

(** X1.  A read of an input right after a write to it returns the written
    value, whichever branch the write took; a read of another input returns
    what it returned before the write.  Neither raises. *)
Theorem propGet_after_propSet (k k' : key) (v : value) (s : State) :
  ((propSet k v;; propGet k) s).1 = Normal v
  ∧ (k' ≠ k → ((propSet k v;; propGet k') s).1 = (propGet k' s).1).
Proof.
  destruct s as [[a|] ir onp dn dev st asc sy re tr];
    unfold propSet, propGet; js_run; rewrite ?weakHas_empty; js_run.
  all: repeat js_case.
  all: split; [try solve_cached|intros Hne; try solve_cached].
Qed.

(** *** The functions in closed form, for a state that has its record *)

Lemma bind_run {A B} (m : JS A) (f : A → JS B) (s s' : State) (x : A) :
  m s = (Normal x, s') → (m ≫= f) s = f x s'.
Proof. intros E. unfold mbind, JS_bind. by rewrite E. Qed.

Lemma propSet_run_changed (k : key) (v : value) (s : State)
    (a : ObserverAdministration) :
  administration s = Some a →
  weakHas (changedVariables a) v = true →
  propSet k v s
  = (Normal (),
     set_trace (trace s ++ [ReportChanged k])
       (set_administration
          (Some (set_cached k v
                   (set_changedVariables (weakDelete (changedVariables a) v) a)))
          s)).
Proof.
  intros Ha E. destruct s as [adm ir onp dn dev st asc sy re tr];
    cbn [administration] in Ha; subst adm.
  unfold propSet; js_run. rewrite E; js_run. reflexivity.
Qed.

Lemma propSet_run_unchanged (k : key) (v : value) (s : State)
    (a : ObserverAdministration) :
  administration s = Some a →
  weakHas (changedVariables a) v = false →
  weakHas (unchangedVariables a) v = true →
  propSet k v s
  = (Normal (),
     set_administration
       (Some (set_cached k v
                (set_unchangedVariables
                   (weakDelete (unchangedVariables a) v) a)))
       s).
Proof.
  intros Ha E1 E2. destruct s as [adm ir onp dn dev st asc sy re tr];
    cbn [administration] in Ha; subst adm.
  unfold propSet; js_run. rewrite E1; js_run. rewrite E2; js_run. reflexivity.
Qed.

Lemma propSet_run_external (k : key) (v : value) (s : State)
    (a : ObserverAdministration) :
  administration s = Some a →
  weakHas (changedVariables a) v = false →
  weakHas (unchangedVariables a) v = false →
  propSet k v s
  = (Normal (),
     if negb (shallowEqual (cached k a) v) then
       set_trace (trace s ++ [ReportChanged k])
         (set_symbols (S (symbols s))
            (set_administration
               (Some (set_pendingStateVersion (symbols s) (set_cached k v a)))
               s))
     else set_administration (Some (set_cached k v a)) s).
Proof.
  intros Ha E1 E2. destruct s as [adm ir onp dn dev st asc sy re tr];
    cbn [administration] in Ha; subst adm.
  unfold propSet; js_run. rewrite E1; js_run. rewrite E2; js_run.
  destruct (shallowEqual (cached k a) v); js_run; reflexivity.
Qed.

Lemma observerSCU_run (nextProps nextState : value) (s : State)
    (a : ObserverAdministration) :
  administration s = Some a →
  let propsChanged := negb (shallowEqual (cachedProps a) nextProps) in
  let stateChanged := negb (shallowEqual (cachedState a) nextState) in
  let shouldUpdate :=
    propsChanged || stateChanged
    || negb (bool_decide (pendingStateVersion a = stateVersion a)) in
  let a1 :=
    if shouldUpdate then set_pendingStateVersion (symbols s) a else a in
  let a2 :=
    if propsChanged then
      set_changedVariables
        (default (changedVariables a1) (weakAdd (changedVariables a1) nextProps))
        a1
    else
      set_unchangedVariables
        (default (unchangedVariables a1)
           (weakAdd (unchangedVariables a1) nextProps))
        a1 in
  let a3 :=
    if stateChanged then
      set_changedVariables
        (default (changedVariables a2) (weakAdd (changedVariables a2) nextState))
        a2
    else
      set_unchangedVariables
        (default (unchangedVariables a2)
           (weakAdd (unchangedVariables a2) nextState))
        a2 in
  observerSCU nextProps nextState s
  = (Normal shouldUpdate,
     set_administration (Some a3)
       (set_symbols (if shouldUpdate then S (symbols s) else symbols s)
          (set_trace
             (trace s ++ (if staticRendering s then [Warn] else [])
              ++ [ReportObserved props; ReportObserved state])
             s))).
Proof.
  intros Ha. destruct s as [adm ir onp dn dev st asc sy re tr];
    cbn [administration] in Ha; subst adm.
  unfold observerSCU, propGet; js_run.
  destruct st; js_run.
  all: destruct (shallowEqual (cachedProps a) nextProps);
    destruct (shallowEqual (cachedState a) nextState);
    destruct (bool_decide (pendingStateVersion a = stateVersion a)); js_run.
  all: destruct nextProps, nextState;
    unfold addIfTruthy, truthy, weakAdd; js_run.
  all: rewrite <- ?app_assoc; reflexivity.
Qed.

(** Discharges the membership tests of [propSet] from facts about sets. *)
Ltac side_sets :=
  first [ reflexivity
        | unfold weakHas, weakDelete, id in *; js_run;
          first [ apply bool_decide_eq_true | apply bool_decide_eq_false ];
          set_unfold; intuition congruence ].

(** Runs one [propSet] whose branch the context determines. *)
Ltac step_propSet :=
  first [ erewrite propSet_run_changed by side_sets
        | erewrite propSet_run_unchanged by side_sets
        | erewrite propSet_run_external by side_sets ].

(** X2.  The update decision followed by the assignments the framework then
    makes ([this.props = nextProps; this.state = nextState]) mints at most
    one token, the one of the decision; the two assignments consume exactly
    the marks the decision left, so both weak sets end as they started; the
    props atom is reported changed exactly if the props changed shallowly,
    and likewise the state atom.  This holds for two distinct objects neither
    of which is marked beforehand. *)
Theorem observerSCU_then_assignments (p q : ref) (s s0 : State)
    (a : ObserverAdministration) :
  getAdministration s = (Normal a, s0) →
  p ≠ q →
  p ∉ changedVariables a → p ∉ unchangedVariables a →
  q ∉ changedVariables a → q ∉ unchangedVariables a →
  let propsChanged := negb (shallowEqual (cachedProps a) (VObject p)) in
  let stateChanged := negb (shallowEqual (cachedState a) (VObject q)) in
  let shouldUpdate :=
    propsChanged || stateChanged
    || negb (bool_decide (pendingStateVersion a = stateVersion a)) in
  ∃ a' s',
    ((b ← observerSCU (VObject p) (VObject q);
      propSet props (VObject p);;
      propSet state (VObject q);;
      mret b) : JS bool) s = (Normal shouldUpdate, s')
    ∧ administration s' = Some a'
    ∧ cachedProps a' = VObject p
    ∧ cachedState a' = VObject q
    ∧ changedVariables a' = changedVariables a
    ∧ unchangedVariables a' = unchangedVariables a
    ∧ stateVersion a' = stateVersion a
    ∧ (if shouldUpdate then
         pendingStateVersion a' = symbols s0 ∧ symbols s' = S (symbols s0)
       else
         pendingStateVersion a' = pendingStateVersion a
         ∧ symbols s' = symbols s0)
    ∧ trace s'
      = trace s ++ (if staticRendering s then [Warn] else [])
        ++ [ReportObserved props; ReportObserved state]
        ++ (if propsChanged then [ReportChanged props] else [])
        ++ (if stateChanged then [ReportChanged state] else []).
Proof.
  intros Hg Hpq Hp1 Hp2 Hq1 Hq2 propsChanged stateChanged shouldUpdate.
  subst shouldUpdate propsChanged stateChanged.
  js_enter s s0 Hg.
  unfold mbind, JS_bind, mret, JS_ret.
  erewrite observerSCU_run by reflexivity.
  cbn [staticRendering symbols trace].
  destruct (shallowEqual (cachedProps a) (VObject p)) eqn:Ep;
    destruct (shallowEqual (cachedState a) (VObject q)) eqn:Eq;
    destruct (bool_decide (pendingStateVersion a = stateVersion a)) eqn:Ev;
    cbn [negb orb andb weakAdd default].
  all: step_propSet; cbv beta iota; step_propSet; cbv beta iota.
  all: rewrite ?Ep, ?Eq; cbn [negb].
  all: eexists _, _; (split; [reflexivity|]); (split; [reflexivity|]).
  all: js_run; rewrite <- ?app_assoc, ?app_nil_r.
  all: repeat split; auto.
  all: unfold weakDelete, id; set_solver.
Qed.

End Bridge.

(** ** The lifecycle hooks and the reaction's callback, composed *)

Section Lifecycle.
Context `{ShallowEqual}.

Lemma onInvalidate_run (s : State) (a : ObserverAdministration) :
  administration s = Some a →
  onInvalidate s
  = (Normal (),
     if bool_decide (pendingStateVersion a = stateVersion a) then
       set_trace
         (trace s
          ++ (if mounted a then
                match scheduleUpdate a with
                | Some cb => [ScheduleUpdate cb (symbols s)]
                | None => []
                end
              else []))
         (set_symbols (S (symbols s))
            (set_administration
               (Some (set_pendingStateVersion (symbols s) a)) s))
     else s).
Proof.
  intros Ha. destruct s as [adm ir onp dn dev st asc sy re tr];
    cbn [administration] in Ha; subst adm.
  unfold onInvalidate; js_run.
  destruct (bool_decide (pendingStateVersion a = stateVersion a)); js_run;
    [|reflexivity].
  destruct (mounted a); js_run; [destruct (scheduleUpdate a); js_run|];
    rewrite ?app_nil_r; reflexivity.
Qed.

Lemma componentDidMount_run (s : State) (a : ObserverAdministration) :
  administration s = Some a →
  DEV s && negb (didMountOnPrototype s) = false →
  componentDidMount None s
  = (Normal VUndefined,
     if isNull (reaction a)
        || negb (bool_decide (pendingStateVersion a = stateVersion a))
     then
       set_trace
         (trace s ++ Unregister
            :: match scheduleUpdate a with
               | Some cb => [ScheduleUpdate cb (symbols s)]
               | None => []
               end)
         (set_symbols (S (symbols s))
            (set_administration
               (Some (set_pendingStateVersion (symbols s) (set_mounted true a)))
               s))
     else
       set_trace (trace s ++ [Unregister])
         (set_administration (Some (set_mounted true a)) s)).
Proof.
  intros Ha Hdev. destruct s as [adm ir onp dn dev st asc sy re tr];
    cbn [administration DEV didMountOnPrototype] in Ha, Hdev; subst adm.
  unfold componentDidMount; js_run. rewrite Hdev; js_run.
  destruct (isNull (reaction a));
    destruct (bool_decide (pendingStateVersion a = stateVersion a)); js_run.
  1,2,4: destruct (scheduleUpdate a); js_run.
  all: rewrite <- ?app_assoc; reflexivity.
Qed.

Lemma componentWillUnmount_run (s : State) (a : ObserverAdministration) :
  administration s = Some a →
  staticRendering s = false →
  componentWillUnmount s
  = (Normal (),
     set_administration (Some (set_mounted false (set_reaction None a)))
       (set_trace
          (trace s ++ match reaction a with
                      | Some r => [Dispose r]
                      | None => []
                      end)
          s)).
Proof.
  intros Ha Hst. destruct s as [adm ir onp dn dev st asc sy re tr];
    cbn [administration staticRendering] in Ha, Hst; subst adm st.
  unfold componentWillUnmount; js_run.
  destruct (reaction a); js_run; rewrite ?app_nil_r; reflexivity.
Qed.

Lemma setScheduleUpdate_run (cb : callback) (s : State)
    (a : ObserverAdministration) :
  administration s = Some a →
  staticRendering s = false →
  setScheduleUpdate cb s
  = (Normal (),
     set_trace
       (trace s
        ++ (if negb (bool_decide (pendingStateVersion a = stateVersion a))
               && mounted a
            then [ScheduleUpdate cb (pendingStateVersion a)]
            else []))
       (set_administration (Some (set_scheduleUpdate (Some cb) a)) s)).
Proof.
  intros Ha Hst. destruct s as [adm ir onp dn dev st asc sy re tr];
    cbn [administration staticRendering] in Ha, Hst; subst adm st.
  unfold setScheduleUpdate; js_run.
  destruct (bool_decide (pendingStateVersion a = stateVersion a));
    destruct (mounted a); js_run; rewrite ?app_nil_r; reflexivity.
Qed.

(** X3.  Between two renders the reaction's callback acts at most once: a
    second invalidation right after a first changes nothing, so it mints no
    further token and calls the update callback no second time.  This needs
    the committed token to be one that was minted, as it is in every state
    the hooks produce. *)
Theorem onInvalidate_twice (s : State) (a : ObserverAdministration) :
  administration s = Some a →
  stateVersion a < symbols s →
  (onInvalidate;; onInvalidate) s = onInvalidate s.
Proof.
  intros Ha Hlt. unfold mbind, JS_bind.
  rewrite (onInvalidate_run s a Ha).
  destruct (bool_decide_reflect (pendingStateVersion a = stateVersion a))
    as [E|E].
  - erewrite onInvalidate_run
      by (destruct s; cbn [administration set_trace set_symbols
                           set_administration]; reflexivity).
    cbn [pendingStateVersion stateVersion set_pendingStateVersion].
    rewrite bool_decide_eq_false_2 by lia. reflexivity.
  - rewrite (onInvalidate_run s a Ha).
    rewrite bool_decide_eq_false_2 by done. reflexivity.
Qed.

(** X4.  A mount that follows an unmount without a render in between finds
    the reaction gone and asks for a new render pass: it mints a fresh
    pending token and, if a callback is registered, calls it exactly once
    with that token.  Before that the unmount disposed the reaction, if
    there was one. *)
Theorem componentDidMount_after_componentWillUnmount (s : State)
    (a : ObserverAdministration) :
  administration s = Some a →
  staticRendering s = false →
  DEV s && negb (didMountOnPrototype s) = false →
  ∃ s',
    (componentWillUnmount;; componentDidMount None) s = (Normal VUndefined, s')
    ∧ administration s'
      = Some (set_pendingStateVersion (symbols s)
                (set_mounted true (set_reaction None a)))
    ∧ symbols s' = S (symbols s)
    ∧ trace s'
      = trace s
        ++ match reaction a with Some r => [Dispose r] | None => [] end
        ++ Unregister
        :: match scheduleUpdate a with
           | Some cb => [ScheduleUpdate cb (symbols s)]
           | None => []
           end.
Proof.
  intros Ha Hst Hdev. unfold mbind, JS_bind.
  rewrite (componentWillUnmount_run s a Ha Hst).
  destruct s as [adm ir onp dn dev st asc sy re tr];
    cbn [administration staticRendering DEV didMountOnPrototype]
      in Ha, Hst, Hdev; subst adm st.
  erewrite componentDidMount_run by (first [reflexivity | exact Hdev]).
  js_run. eexists. split; [reflexivity|]. js_run.
  rewrite <- ?app_assoc. auto.
Qed.

(** X5.  An invalidation that reaches an instance that is rendered but not
    yet mounted is remembered, not delivered: the callback is not called.
    The mount that follows delivers it, exactly once, with a token of its
    own minting. *)
Theorem componentDidMount_after_onInvalidate (s : State)
    (a : ObserverAdministration) :
  administration s = Some a →
  mounted a = false →
  pendingStateVersion a = stateVersion a →
  stateVersion a < symbols s →
  DEV s && negb (didMountOnPrototype s) = false →
  ∃ s1 s',
    onInvalidate s = (Normal (), s1)
    ∧ trace s1 = trace s
    ∧ componentDidMount None s1 = (Normal VUndefined, s')
    ∧ administration s'
      = Some (set_pendingStateVersion (S (symbols s)) (set_mounted true a))
    ∧ trace s'
      = trace s ++ Unregister
          :: match scheduleUpdate a with
             | Some cb => [ScheduleUpdate cb (S (symbols s))]
             | None => []
             end.
Proof.
  intros Ha Hm Hv Hlt Hdev.
  rewrite (onInvalidate_run s a Ha), Hm.
  rewrite bool_decide_eq_true_2 by done.
  destruct s as [adm ir onp dn dev st asc sy re tr];
    cbn [administration symbols DEV didMountOnPrototype] in Ha, Hlt, Hdev;
    subst adm.
  eexists _, _. split; [reflexivity|]. split; [js_run; by rewrite app_nil_r|].
  erewrite componentDidMount_run by (first [reflexivity | exact Hdev]).
  js_run.
  replace (bool_decide (sy = stateVersion a)) with false
    by (symmetry; apply bool_decide_eq_false_2; lia).
  rewrite orb_true_r. split; [reflexivity|]. js_run.
  rewrite app_nil_r. auto.
Qed.

(** X6.  A mount that has to resynchronize while no callback is registered
    yet calls nobody; the registration that follows makes up for it: it
    calls the new callback at once, with the token the mount minted. *)
Theorem setScheduleUpdate_after_componentDidMount (cb : callback) (s : State)
    (a : ObserverAdministration) :
  administration s = Some a →
  scheduleUpdate a = None →
  isNull (reaction a)
  || negb (bool_decide (pendingStateVersion a = stateVersion a)) = true →
  stateVersion a < symbols s →
  staticRendering s = false →
  DEV s && negb (didMountOnPrototype s) = false →
  ∃ s',
    (componentDidMount None;; setScheduleUpdate cb) s = (Normal (), s')
    ∧ administration s'
      = Some (set_scheduleUpdate (Some cb)
                (set_pendingStateVersion (symbols s) (set_mounted true a)))
    ∧ trace s' = trace s ++ [Unregister; ScheduleUpdate cb (symbols s)].
Proof.
  intros Ha Hcb Hre Hlt Hst Hdev. unfold mbind, JS_bind.
  rewrite (componentDidMount_run s a Ha Hdev), Hre, Hcb.
  destruct s as [adm ir onp dn dev st asc sy re tr];
    cbn [administration symbols staticRendering] in Ha, Hlt, Hst; subst adm st.
  erewrite setScheduleUpdate_run by reflexivity.
  js_run.
  replace (bool_decide (sy = stateVersion a)) with false
    by (symmetry; apply bool_decide_eq_false_2; lia).
  js_run. eexists. split; [reflexivity|]. js_run.
  rewrite <- app_assoc. auto.
Qed.

End Lifecycle.

(** ** The tracked render, from entry to exit *)

Section Rendering.
Context `{ShallowEqual}.





End Rendering.

(** ** What every history preserves *)

Section HistoryInvariants.
Context `{ShallowEqual}.

Ltac continues_solve :=
  try match goal with
      | E : weakHas ∅ _ = true |- _ =>
          rewrite weakHas_empty in E; discriminate E
      end;
  unfold Continues in *; js_run;
  repeat match goal with
         | H : _ ∧ _ |- _ => destruct H
         | H : ∃ _, _ |- _ => destruct H
         end;
  subst;
  repeat split; intros; js_run;
  try lia; try done; try (by eexists); try congruence; try (by auto);
  try match goal with
      | H : is_Some _ → is_Some _ |- _ => by (apply H; eexists)
      end;
  try (eexists; rewrite <- ?app_assoc;
       first [reflexivity | symmetry; apply app_nil_r]).

Lemma Continues_refl (s : State) : Continues s s.
Proof. destruct s. continues_solve. Qed.

Lemma Continues_trans (s1 s2 s3 : State) :
  Continues s1 s2 → Continues s2 s3 → Continues s1 s3.
Proof.
  unfold Continues.
  intros (? & ? & [e1 E1] & ? & ? & ? & ? & ? & ?)
         (? & ? & [e2 E2] & ? & ? & ? & ? & ? & ?).
  repeat split; try lia; try congruence; auto.
  exists (e1 ++ e2). rewrite E2, E1. by rewrite app_assoc.
Qed.

Lemma propGet_continues (k : key) (s : State) : Continues s (propGet k s).2.
Proof.
  destruct s as [[a|] ir onp dn dev st asc sy re tr];
    unfold propGet; continues_solve.
Qed.

Lemma propSet_continues (k : key) (v : value) (s : State) :
  Continues s (propSet k v s).2.
Proof.
  destruct s as [[a|] ir onp dn dev st asc sy re tr];
    unfold propSet, Continues; js_run; rewrite ?weakHas_empty; js_run.
  all: repeat js_case; continues_solve.
Qed.

Lemma observerSCU_continues (nextProps nextState : value) (s : State) :
  Continues s (observerSCU nextProps nextState s).2.
Proof.
  destruct s as [[a|] ir onp dn dev st asc sy re tr];
    unfold observerSCU, propGet; js_run.
  all: destruct st; js_run.
  all: repeat match goal with
         | |- context [@shallowEqual ?H ?x ?y] =>
             destruct (@shallowEqual H x y) eqn:?; js_run
         end.
  all: rewrite ?bool_decide_refl; js_run.
  all: try destruct (bool_decide (pendingStateVersion a = stateVersion a)).
  all: js_run.
  all: repeat match goal with
         | |- context [addIfTruthy ?v ?ws ?s] =>
             rewrite (addIfTruthy_run v ws s); js_run
         end.
  all: continues_solve.
Qed.

Lemma setScheduleUpdate_continues (cb : callback) (s : State) :
  Continues s (setScheduleUpdate cb s).2.
Proof.
  destruct s as [[a|] ir onp dn dev st asc sy re tr];
    unfold setScheduleUpdate; js_run.
  all: destruct st; js_run; [continues_solve|].
  - destruct (bool_decide (pendingStateVersion a = stateVersion a));
      destruct (mounted a); js_run; continues_solve.
  - rewrite bool_decide_refl; js_run. continues_solve.
Qed.

Lemma componentDidMount_continues (s : State) :
  Continues s (componentDidMount None s).2.
Proof.
  destruct s as [[a|] ir onp dn dev st asc sy re tr];
    unfold componentDidMount; js_run.
  all: destruct (dev && negb onp); js_run; [continues_solve|].
  - destruct (reaction a); cbn [isNull orb]; js_run.
    + destruct (bool_decide (pendingStateVersion a = stateVersion a));
        js_run; [continues_solve|].
      destruct (scheduleUpdate a); js_run; continues_solve.
    + destruct (scheduleUpdate a); js_run; continues_solve.
  - cbn [isNull orb]; js_run. continues_solve.
Qed.

Lemma componentWillUnmount_continues (s : State) :
  Continues s (componentWillUnmount s).2.
Proof.
  destruct s as [[a|] ir onp dn dev st asc sy re tr];
    unfold componentWillUnmount; js_run.
  all: destruct st; js_run; [continues_solve|].
  - destruct (reaction a); js_run; continues_solve.
  - continues_solve.
Qed.

Lemma invalidate_continues (s : State) : Continues s (invalidate s).2.
Proof.
  destruct s as [[a|] ir onp dn dev st asc sy re tr];
    unfold invalidate, onInvalidate; js_run.
  - destruct (reaction a); js_run; [|continues_solve].
    destruct (bool_decide (pendingStateVersion a = stateVersion a));
      js_run; [|continues_solve].
    destruct (mounted a); js_run; [destruct (scheduleUpdate a); js_run|];
      continues_solve.
  - continues_solve.
Qed.

(** The body of a tracked render starts with state changes disallowed; when
    it leaves them so, the call as a whole continues the state it was made
    in. *)
Lemma reactiveRender_continues (f : JS value) (s : State) :
  Continues (reactiveEntry s) (f (reactiveEntry s)).2 →
  Continues s (reactiveRender f s).2.
Proof.
  rewrite reactiveRender_body_once.
  destruct (f (reactiveEntry s)) as [c sE]. cbn [snd].
  destruct sE as [[aE|] irE onpE dnE devE stE ascE syE reE trE];
    destruct s as [[a|] ir onp dn dev st asc sy re tr];
    unfold reactiveRender, reactiveEntry; js_run.
  all: try (destruct (reaction a) eqn:Er; js_run; rewrite ?Er; js_run).
  all: try (destruct (mounted a); js_run).
  all: destruct c as [v|e]; js_run; try destruct (truthyAny e); js_run.
  all: intros Hc; continues_solve.
Qed.

Lemma render_installed (f : JS value) (s : State) (t : installedRender) :
  instanceRender s = Some t →
  render f s = match t with
               | OriginalRender => f s
               | ReactiveRender => reactiveRender f s
               end.
Proof.
  destruct s as [adm ir onp dn dev st asc sy re tr]; cbn [instanceRender].
  intros ->. unfold render; js_run. by destruct t.
Qed.

Lemma render_continues (f : JS value) (s : State) :
  (∀ s1, Continues s1 (f s1).2) →
  Continues s (render f s).2
  ∧ instanceRender (render f s).2 = Some (renderTarget s).
Proof.
  intros Hf.
  set (s1 := set_instanceRender (Some (renderTarget s)) s).
  assert (Hs1 : Continues s s1).
  { destruct s as [adm [t|] onp dn dev st asc sy re tr];
      unfold s1, renderTarget; continues_solve. }
  assert (Hi : instanceRender s1 = Some (renderTarget s)) by by destruct s.
  assert (Hr : render f s = render f s1).
  { destruct (renderTarget s) eqn:Et.
    - rewrite render_original by done.
      by rewrite (render_installed f s1 OriginalRender).
    - rewrite render_reactive by done.
      by rewrite (render_installed f s1 ReactiveRender). }
  assert (Hc : Continues s1 (render f s1).2).
  { rewrite (render_installed f s1 _ Hi).
    destruct (renderTarget s); [apply Hf|].
    apply reactiveRender_continues, Hf. }
  rewrite Hr. split; [by eapply Continues_trans|].
  by apply Hc.
Qed.

Lemma runOp_runScript_continues :
  (∀ o s, Continues s (runOp o s).2)
  ∧ (∀ sc s, Continues s (runScript sc s).2).
Proof.
  apply Op_Script_ind.
  - intros k s. cbn [runOp]. rewrite bind_ret_state. apply propGet_continues.
  - intros k v s. apply propSet_continues.
  - intros cb s. apply setScheduleUpdate_continues.
  - intros nextProps nextState s. cbn [runOp]. rewrite bind_ret_state.
    apply observerSCU_continues.
  - intros body IH s. cbn [runOp]. rewrite bind_ret_state.
    by apply render_continues.
  - intros s. cbn [runOp]. rewrite bind_ret_state.
    apply componentDidMount_continues.
  - intros s. apply componentWillUnmount_continues.
  - intros s. apply invalidate_continues.
  - intros b s. destruct s. continues_solve.
  - intros v s. apply Continues_refl.
  - intros e s. apply Continues_refl.
  - intros o IHo rest IHrest s. cbn [runScript]. rewrite attempt_then.
    eapply Continues_trans; [apply IHo | apply IHrest].
Qed.

(** X10.  Whatever the framework, the reactive engine and user code do with
    an instance, also with renders nested in render bodies and with bodies
    that throw: symbols and reactions are only ever added, events are only
    ever appended, a record once created stays, the render function once
    installed on the instance stays the installed one, and the state-change
    permission is after the history what it was before it, as are the
    development flag, the prototype's mount hook and the display name. *)
Theorem history_continues (sc : Script) (s : State) :
  Continues s (runScript sc s).2.
Proof. apply runOp_runScript_continues. Qed.

(** X11.  The first call of the patched [render] decides for good which
    function renders the instance.  Whatever that call reached, the original
    render under static rendering or the tracked render otherwise, every
    later call reaches the same, whatever happened in between and whatever
    the static rendering switch says by then. *)
Theorem render_target_is_permanent (body sc : Script) (f : JS value)
    (s : State) :
  let s2 := (runScript sc (runOp (Render body) s).2).2 in
  render f s2 = match renderTarget s with
                | OriginalRender => f s2
                | ReactiveRender => reactiveRender f s2
                end.
Proof.
  intros s2. apply render_installed.
  assert (Hi : instanceRender (runOp (Render body) s).2
               = Some (renderTarget s)).
  { cbn [runOp]. rewrite bind_ret_state.
    apply render_continues, runOp_runScript_continues. }
  pose proof (proj2 runOp_runScript_continues sc (runOp (Render body) s).2)
    as Hc.
  by apply Hc.
Qed.




End HistoryInvariants.

(** ** The update-delivery store over sequences of calls *)

Lemma storeCalls_snoc (cs : list StoreCall) (c : StoreCall)
    (st : MobxObserverStore.t) :
  storeCalls (cs ++ [c]) st = (storeCall c (storeCalls cs st)).1.
Proof. unfold storeCalls. by rewrite foldl_app. Qed.

Lemma storeCall_NoDup (c : StoreCall) (st : MobxObserverStore.t) :
  NoDup (MobxObserverStore.listeners st) →
  NoDup (MobxObserverStore.listeners (storeCall c st).1)
  ∧ NoDup (storeCall c st).2.
Proof.
  intros Hnd. destruct c as [newValue|l|l]; cbn.
  - unfold MobxObserverStore.setValue, MobxObserverStore.notifyListeners.
    case_bool_decide; cbn; split; auto using NoDup_nil_2.
  - split; [by apply subscribe_listed | apply NoDup_nil_2].
  - split; [by apply NoDup_filter | apply NoDup_nil_2].
Qed.

Lemma storeCalls_NoDup (cs : list StoreCall) (st : MobxObserverStore.t) :
  NoDup (MobxObserverStore.listeners st) →
  NoDup (MobxObserverStore.listeners (storeCalls cs st)).
Proof.
  revert st. induction cs as [|c cs IH]; intros st Hnd; [done|].
  cbn. apply IH. by apply storeCall_NoDup.
Qed.

(** X14.  However a store has been used since it was constructed, one call
    of [setValue] calls no listener twice: subscribing a listener again does
    not list it a second time. *)
Theorem setValue_calls_nobody_twice (v newValue : Symbol)
    (cs : list StoreCall) :
  NoDup (MobxObserverStore.setValue newValue
           (storeCalls cs (MobxObserverStore.mk v []))).2.
Proof.
  apply (storeCall_NoDup (CallSetValue newValue)).
  apply storeCalls_NoDup, NoDup_nil_2.
Qed.

Lemma storeCalls_unlisted (l : listener) (cs : list StoreCall)
    (st : MobxObserverStore.t) :
  Forall (λ c, c ≠ CallSubscribe l) cs →
  l ∉ MobxObserverStore.listeners st →
  l ∉ MobxObserverStore.listeners (storeCalls cs st).
Proof.
  revert st. induction cs as [|c cs IH]; intros st Hcs Hl; [done|].
  apply Forall_cons in Hcs as [Hc Hcs]. cbn. apply IH; [done|].
  destruct c as [newValue|l'|l']; cbn.
  - unfold MobxObserverStore.setValue. by case_bool_decide.
  - case_bool_decide; [done|].
    rewrite elem_of_app, list_elem_of_singleton. intros [?| ->]; congruence.
  - rewrite list_elem_of_filter. tauto.
Qed.

Lemma storeCalls_listed (l : listener) (cs : list StoreCall)
    (st : MobxObserverStore.t) :
  Forall (λ c, c ≠ CallUnsubscribe l) cs →
  l ∈ MobxObserverStore.listeners st →
  l ∈ MobxObserverStore.listeners (storeCalls cs st).
Proof.
  revert st. induction cs as [|c cs IH]; intros st Hcs Hl; [done|].
  apply Forall_cons in Hcs as [Hc Hcs]. cbn. apply IH; [done|].
  destruct c as [newValue|l'|l']; cbn.
  - unfold MobxObserverStore.setValue. by case_bool_decide.
  - case_bool_decide; [done|]. rewrite elem_of_app. by left.
  - rewrite list_elem_of_filter. split; [congruence|done].
Qed.

(** X15.  A listener that has been unsubscribed is not called again, whatever
    calls of the store follow, as long as it is not subscribed anew. *)
Theorem unsubscribed_listener_is_not_called (l : listener)
    (cs : list StoreCall) (c : StoreCall) (st : MobxObserverStore.t) :
  Forall (λ c, c ≠ CallSubscribe l) cs →
  l ∉ (storeCall c (storeCalls (CallUnsubscribe l :: cs) st)).2.
Proof.
  intros Hcs.
  pose proof (storeCalls_unlisted l cs (MobxObserverStore.unsubscribe l st)
                Hcs (unsubscribe_unlisted l st)) as Hl.
  destruct c as [newValue|l'|l']; cbn; try apply not_elem_of_nil.
  unfold MobxObserverStore.setValue, MobxObserverStore.notifyListeners.
  case_bool_decide; cbn; [apply not_elem_of_nil | exact Hl].
Qed.

(** X16.  A listener that has been subscribed is called by every later
    [setValue] that changes the stored token, whatever calls of the store
    come in between, as long as it is not unsubscribed; and then [getValue]
    returns the new token. *)
Theorem subscribed_listener_is_called (l : listener) (cs : list StoreCall)
    (newValue : Symbol) (st : MobxObserverStore.t) :
  Forall (λ c, c ≠ CallUnsubscribe l) cs →
  let st1 := storeCalls (CallSubscribe l :: cs) st in
  MobxObserverStore.getValue st1 ≠ newValue →
  l ∈ (MobxObserverStore.setValue newValue st1).2
  ∧ MobxObserverStore.getValue (MobxObserverStore.setValue newValue st1).1
    = newValue.
Proof.
  intros Hcs st1 Hv.
  pose proof (storeCalls_listed l cs (MobxObserverStore.subscribe l st)
                Hcs (proj1 (subscribe_listed l st))) as Hl.
  unfold MobxObserverStore.setValue, MobxObserverStore.notifyListeners,
    MobxObserverStore.getValue in *.
  rewrite bool_decide_eq_false_2 by done. cbn. by split.
Qed.

(** X17.  Subscribing a listener that was not subscribed and then calling the
    function [subscribe] returned puts the store back exactly as it was,
    when the store lists no listener twice, as every store does that calls
    have produced. *)
Theorem unsubscribe_after_subscribe (l : listener)
    (st : MobxObserverStore.t) :
  l ∉ MobxObserverStore.listeners st →
  MobxObserverStore.unsubscribe l (MobxObserverStore.subscribe l st) = st.
Proof.
  intros Hl. destruct st as [v ls]; cbn in *.
  unfold MobxObserverStore.unsubscribe, MobxObserverStore.subscribe; cbn.
  rewrite bool_decide_eq_false_2 by done. f_equal.
  rewrite filter_app, filter_cons_False, filter_nil, app_nil_r by (by intros ?).
  clear -Hl. induction ls as [|x ls IH]; [done|].
  apply not_elem_of_cons in Hl as [Hx Hl].
  rewrite filter_cons_True by done. by rewrite IH.
Qed.

(** ** Wrapping *)

Lemma getDisplayName_nonempty (componentClass : IReactComponent) :
  getDisplayName componentClass ≠ "".
Proof.
  unfold getDisplayName.
  destruct (classDisplayName componentClass); repeat case_bool_decide; done.
Qed.

Lemma getDisplayName_WrappedComponent (componentClass : IReactComponent) :
  getDisplayName (WrappedComponent componentClass)
  = getDisplayName componentClass.
Proof.
  unfold getDisplayName at 1; cbn.
  rewrite bool_decide_eq_false_2; [done | apply getDisplayName_nonempty].
Qed.


Lemma makeClassComponentObserver_again
    (componentClass patched wrapped : IReactComponent) :
  makeClassComponentObserver componentClass = (patched, Normal wrapped) →
  ∃ wrapped', (makeClassComponentObserver patched).2 = Normal wrapped'.
Proof.
  destruct componentClass as [chain marked inj dn cn cwr scu rf p1 p2 p3 p4 p5].
  unfold makeClassComponentObserver; cbn.
  destruct cwr; [done|].
  destruct (bool_decide (head chain = Some ReactPureComponent)) eqn:Ep;
    cbn; [done|].
  destruct scu; cbn; try done.
  all: destruct rf; cbn; [|done].
  all: intros [= <- <-]; cbn; rewrite Ep; cbn; eauto.
Qed.

(** X18.  A wrap that succeeds has installed every patch on the class:
    [setScheduleUpdate], [observerSCU] as [shouldComponentUpdate], the
    observable accessors, the patched [render] and the two lifecycle hooks.
    The component it returns goes by the debugging name of the class, which
    is never empty, and is not marked yet.  What the wrap leaves is a class
    that the function accepts again, as it must when [observer] is applied
    to a subclass as well. *)
Theorem makeClassComponentObserver_patches
    (componentClass patched wrapped : IReactComponent) :
  makeClassComponentObserver componentClass = (patched, Normal wrapped) →
  patched
  = set_lifecyclePatched
      (set_hasObservableDescriptors
         (set_shouldComponentUpdate ScuObserverSCU
            (set_hasSetScheduleUpdate componentClass)))
  ∧ wrapped = WrappedComponent patched
  ∧ getDisplayName wrapped = getDisplayName componentClass
  ∧ getDisplayName wrapped ≠ ""
  ∧ isMobXReactObserver wrapped = false
  ∧ ∃ wrapped', (makeClassComponentObserver patched).2 = Normal wrapped'.
Proof.
  intros Hw.
  destruct (makeClassComponentObserver_again _ _ _ Hw) as [wrapped' Hagain].
  assert (patched
          = set_lifecyclePatched
              (set_hasObservableDescriptors
                 (set_shouldComponentUpdate ScuObserverSCU
                    (set_hasSetScheduleUpdate componentClass)))
          ∧ wrapped = WrappedComponent patched) as [Hp ->].
  { clear Hagain.
    destruct componentClass
      as [chain marked inj dn cn cwr scu rf p1 p2 p3 p4 p5].
    unfold makeClassComponentObserver in Hw; cbn in Hw.
    destruct cwr; [done|].
    destruct (bool_decide (head chain = Some ReactPureComponent));
      cbn in Hw; [done|].
    destruct scu; cbn in Hw; try done.
    all: destruct rf; cbn in Hw; [|done].
    all: by injection Hw as <- <-. }
  split; [exact Hp|]. split; [reflexivity|].
  rewrite getDisplayName_WrappedComponent.
  split; [by rewrite Hp|]. split; [apply getDisplayName_nonempty|].
  split; [reflexivity | by exists wrapped'].
Qed.

(** X19.  A wrap that fails has patched the class in part.  The prototype
    has [setScheduleUpdate] by then, whatever the failure; the render
    function and the lifecycle hooks are as they were.  When all that is
    wrong is the missing render function, [observerSCU] and the observable
    accessors are installed as well; with any earlier failure nothing else
    is. *)
Theorem makeClassComponentObserver_failure
    (componentClass patched : IReactComponent) (e : any) :
  makeClassComponentObserver componentClass = (patched, Abrupt e) →
  hasSetScheduleUpdate patched = true
  ∧ hasPatchedRender patched = hasPatchedRender componentClass
  ∧ hasPatchedDidMount patched = hasPatchedDidMount componentClass
  ∧ hasPatchedWillUnmount patched = hasPatchedWillUnmount componentClass
  ∧ if componentWillReact componentClass
       || bool_decide (head (protoChain componentClass)
                       = Some ReactPureComponent)
       || bool_decide (shouldComponentUpdate componentClass = ScuOther)
    then patched = set_hasSetScheduleUpdate componentClass
    else
      renderIsFunction componentClass = false
      ∧ patched
        = set_hasObservableDescriptors
            (set_shouldComponentUpdate ScuObserverSCU
               (set_hasSetScheduleUpdate componentClass)).
Proof.
  destruct componentClass as [chain marked inj dn cn cwr scu rf p1 p2 p3 p4 p5].
  unfold makeClassComponentObserver; cbn.
  destruct cwr; cbn; [by intros [= <- <-]|].
  destruct (bool_decide (head chain = Some ReactPureComponent)) eqn:Ep;
    cbn; [by intros [= <- <-]|].
  destruct scu; cbn; try (by intros [= <- <-]).
  all: destruct rf; cbn; [done|].
  all: by intros [= <- <-].
Qed.


(** ** The record and the development check *)

(** X21.  The administration record is created lazily and once: the first
    use creates it, silently, and every later use finds the same record and
    changes nothing. *)
Theorem getAdministration_once (s : State) :
  ∃ a s0,
    getAdministration s = (Normal a, s0)
    ∧ getAdministration s0 = (Normal a, s0)
    ∧ trace s0 = trace s
    ∧ (is_Some (administration s) → s0 = s).
Proof.
  destruct s as [[a|] ir onp dn dev st asc sy re tr];
    unfold getAdministration; cbn; eexists _, _;
    repeat split; try done; by intros [? [=]].
Qed.

(** X22.  In a development build, a mount that finds the instance carrying a
    [componentDidMount] of its own, different from the prototype's, fails
    before it does anything: the instance is not marked as mounted, nothing
    is unregistered, no token is minted, no callback is called and the
    component's own hook is not run. *)
Theorem componentDidMount_rejects_own_hook
    (originalComponentDidMount : option (JS value)) (s : State) :
  DEV s = true →
  didMountOnPrototype s = false →
  ∃ msg,
    componentDidMount originalComponentDidMount s = (Abrupt (Err msg), s).
Proof.
  intros Hdev Honp.
  destruct s as [adm ir onp dn dev st asc sy re tr];
    cbn [DEV didMountOnPrototype] in Hdev, Honp; subst.
  unfold componentDidMount; js_run. by eexists.
Qed.

(** ** From the record to the store *)

Section Delivery.
Context `{ShallowEqual}.

(** The token that a mount or the reaction's callback hands to the update
    callback has just been minted. *)
Lemma notifying_token_fresh (o : Op) (s : State) (events : list Event)
    (cb : callback) (token : Symbol) :
  o = DidMount ∨ o = Invalidate →
  trace (runOp o s).2 = trace s ++ events →
  (cb, token) ∈ scheduledUpdates events →
  token = symbols s.
Proof.
  assert (Hnil : ∀ tr ev : list Event, tr = tr ++ ev → ev = []).
  { intros tr ev E. apply (app_inv_head tr). by rewrite app_nil_r. }
  intros [-> | ->]; cbn [runOp]; rewrite ?bind_ret_state.
  - destruct s as [[a|] ir onp dn dev st asc sy re tr];
      unfold componentDidMount; js_run.
    all: destruct (dev && negb onp); js_run.
    all: try (destruct (isNull (reaction a));
              destruct (bool_decide (pendingStateVersion a = stateVersion a));
              js_run).
    all: try (destruct (scheduleUpdate a); js_run).
    all: rewrite <- ?app_assoc; intros E;
      first [apply Hnil in E | apply app_inv_head in E]; subst events; cbn.
    all: intros Hin; set_unfold in Hin; intuition congruence.
  - destruct s as [[a|] ir onp dn dev st asc sy re tr];
      unfold invalidate, onInvalidate; js_run.
    all: try (destruct (reaction a); js_run).
    all: try (destruct (bool_decide (pendingStateVersion a = stateVersion a));
              js_run).
    all: try (destruct (mounted a); js_run).
    all: try (destruct (scheduleUpdate a); js_run).
    all: rewrite <- ?app_assoc; intros E;
      first [apply Hnil in E | apply app_inv_head in E]; subst events; cbn.
    all: intros Hin; set_unfold in Hin; intuition congruence.
Qed.

(** X23.  The wrapper registers the store's [setValue] as the update
    callback.  A token that a mount or the reaction's callback hands over is
    new, so a store that holds any token minted before takes it and calls
    every subscribed listener: such a notification is never dropped by the
    store's comparison. *)
Theorem fresh_token_reaches_listeners (o : Op) (s : State)
    (events : list Event) (cb : callback) (token : Symbol)
    (st : MobxObserverStore.t) :
  o = DidMount ∨ o = Invalidate →
  MobxObserverStore.value st < symbols s →
  trace (runOp o s).2 = trace s ++ events →
  (cb, token) ∈ scheduledUpdates events →
  MobxObserverStore.setValue token st
  = (MobxObserverStore.mk token (MobxObserverStore.listeners st),
     MobxObserverStore.listeners st).
Proof.
  intros Ho Hv Ht Hin.
  rewrite (notifying_token_fresh o s events cb token Ho Ht Hin).
  unfold MobxObserverStore.setValue, MobxObserverStore.notifyListeners.
  rewrite bool_decide_eq_false_2 by lia. reflexivity.
Qed.

End Delivery.

(** * Closed examples for the further properties *)

Lemma renderedInstance_reachable :
  after (render (mret VUndefined)) (after (setScheduleUpdate 7) freshInstance)
  = renderedInstance.
Proof. vm_compute. reflexivity. Qed.

Lemma observerSCU_then_assignments_witness :
  ∃ a,
    getAdministration statelessInstance = (Normal a, statelessInstance)
    ∧ 2 ≠ 3
    ∧ (2 ∉ changedVariables a)
    ∧ (2 ∉ unchangedVariables a)
    ∧ (3 ∉ changedVariables a)
    ∧ (3 ∉ unchangedVariables a)
    ∧ ∃ b a' s',
        ((b ← @observerSCU exShallowEqual (VObject 2) (VObject 3);
          @propSet exShallowEqual props (VObject 2);;
          @propSet exShallowEqual state (VObject 3);;
          mret b) : JS bool) statelessInstance
        = (Normal b, s')
        ∧ administration s' = Some a'
        ∧ cachedProps a' = VObject 2
        ∧ cachedState a' = VObject 3.
Proof.
  eexists. split; [reflexivity|].
  cbn [changedVariables unchangedVariables].
  assert (H2 : 2 ∉ (∅ : WeakSet)) by apply not_elem_of_empty.
  assert (H3 : 3 ∉ (∅ : WeakSet)) by apply not_elem_of_empty.
  assert (Hne : 2 ≠ 3) by lia.
  repeat (split; [assumption|]).
  destruct (@observerSCU_then_assignments exShallowEqual 2 3
              statelessInstance statelessInstance _ eq_refl Hne H2 H2 H3 H3)
    as (a' & s' & Hrun & Ha' & Hp & Hq & _).
  eexists _, a', s'. repeat split; [exact Hrun|exact Ha'|exact Hp|exact Hq].
Defined.

Lemma onInvalidate_twice_witness :
  ∃ a,
    administration statelessInstance = Some a
    ∧ stateVersion a < symbols statelessInstance
    ∧ (onInvalidate;; onInvalidate) statelessInstance
      = onInvalidate statelessInstance.
Proof.
  eexists. split; [reflexivity|].
  assert (Hlt : 2 < 3) by lia.
  split; [exact Hlt|].
  exact (onInvalidate_twice statelessInstance _ eq_refl Hlt).
Defined.

Lemma componentDidMount_after_componentWillUnmount_witness :
  ∃ a,
    administration statelessInstance = Some a
    ∧ staticRendering statelessInstance = false
    ∧ DEV statelessInstance && negb (didMountOnPrototype statelessInstance)
      = false
    ∧ ∃ s',
        (componentWillUnmount;; componentDidMount None) statelessInstance
        = (Normal VUndefined, s')
        ∧ trace s'
          = trace statelessInstance
            ++ [Dispose 0; Unregister; ScheduleUpdate 7 3].
Proof.
  eexists. split; [reflexivity|]. split; [reflexivity|]. split; [reflexivity|].
  destruct (componentDidMount_after_componentWillUnmount statelessInstance _
              eq_refl eq_refl eq_refl) as (s' & Hrun & _ & _ & Ht).
  exists s'. split; [exact Hrun | exact Ht].
Defined.

Lemma componentDidMount_after_onInvalidate_witness :
  ∃ a,
    administration renderedInstance = Some a
    ∧ mounted a = false
    ∧ pendingStateVersion a = stateVersion a
    ∧ stateVersion a < symbols renderedInstance
    ∧ DEV renderedInstance && negb (didMountOnPrototype renderedInstance)
      = false
    ∧ ∃ s1 s',
        onInvalidate renderedInstance = (Normal (), s1)
        ∧ trace s1 = trace renderedInstance
        ∧ componentDidMount None s1 = (Normal VUndefined, s')
        ∧ trace s'
          = trace renderedInstance ++ [Unregister; ScheduleUpdate 7 2].
Proof.
  eexists. split; [reflexivity|]. split; [reflexivity|]. split; [reflexivity|].
  assert (Hlt : 0 < 1) by lia.
  split; [exact Hlt|]. split; [reflexivity|].
  destruct (componentDidMount_after_onInvalidate renderedInstance _
              eq_refl eq_refl eq_refl Hlt eq_refl)
    as (s1 & s' & Hinv & Ht1 & Hrun & _ & Ht).
  exists s1, s'. repeat split; assumption.
Defined.

Lemma setScheduleUpdate_after_componentDidMount_witness :
  ∃ a,
    administration bothMarkedInstance = Some a
    ∧ scheduleUpdate a = None
    ∧ isNull (reaction a)
      || negb (bool_decide (pendingStateVersion a = stateVersion a)) = true
    ∧ stateVersion a < symbols bothMarkedInstance
    ∧ staticRendering bothMarkedInstance = false
    ∧ DEV bothMarkedInstance && negb (didMountOnPrototype bothMarkedInstance)
      = false
    ∧ ∃ s',
        (componentDidMount None;; setScheduleUpdate 7) bothMarkedInstance
        = (Normal (), s')
        ∧ trace s'
          = trace bothMarkedInstance ++ [Unregister; ScheduleUpdate 7 3].
Proof.
  eexists. split; [reflexivity|]. split; [reflexivity|]. split; [reflexivity|].
  assert (Hlt : 0 < 3) by lia.
  split; [exact Hlt|]. split; [reflexivity|]. split; [reflexivity|].
  destruct (setScheduleUpdate_after_componentDidMount 7 bothMarkedInstance _
              eq_refl eq_refl eq_refl Hlt eq_refl eq_refl)
    as (s' & Hrun & _ & Ht).
  exists s'. split; assumption.
Defined.





Lemma unsubscribed_listener_is_not_called_witness :
  Forall (λ c, c ≠ CallSubscribe 1) [CallSetValue 5; CallSubscribe 2]
  ∧ 1 ∉ (storeCall (CallSetValue 6)
           (storeCalls [CallUnsubscribe 1; CallSetValue 5; CallSubscribe 2]
              exStore)).2.
Proof.
  assert (Hcs : Forall (λ c, c ≠ CallSubscribe 1)
                  [CallSetValue 5; CallSubscribe 2])
    by (repeat constructor; discriminate).
  split; [exact Hcs|].
  exact (unsubscribed_listener_is_not_called 1 _ (CallSetValue 6) exStore Hcs).
Defined.

Lemma subscribed_listener_is_called_witness :
  Forall (λ c, c ≠ CallUnsubscribe 2) [CallSetValue 5; CallUnsubscribe 1]
  ∧ MobxObserverStore.getValue
      (storeCalls [CallSubscribe 2; CallSetValue 5; CallUnsubscribe 1] exStore)
    ≠ 6
  ∧ 2 ∈ (MobxObserverStore.setValue 6
           (storeCalls [CallSubscribe 2; CallSetValue 5; CallUnsubscribe 1]
              exStore)).2.
Proof.
  assert (Hcs : Forall (λ c, c ≠ CallUnsubscribe 2)
                  [CallSetValue 5; CallUnsubscribe 1])
    by (repeat constructor; discriminate).
  assert (Hv : MobxObserverStore.getValue
                 (storeCalls [CallSubscribe 2; CallSetValue 5; CallUnsubscribe 1]
                    exStore) ≠ 6)
    by (vm_compute; discriminate).
  split; [exact Hcs|]. split; [exact Hv|].
  exact (proj1 (subscribed_listener_is_called 2 _ 6 exStore Hcs Hv)).
Defined.

Lemma unsubscribe_after_subscribe_witness :
  (2 ∉ MobxObserverStore.listeners exStore)
  ∧ MobxObserverStore.unsubscribe 2 (MobxObserverStore.subscribe 2 exStore)
    = exStore.
Proof.
  assert (Hl : 2 ∉ MobxObserverStore.listeners exStore).
  { vm_compute. intros Hin. apply list_elem_of_singleton in Hin. discriminate Hin. }
  split; [exact Hl|].
  exact (unsubscribe_after_subscribe 2 exStore Hl).
Defined.

Lemma makeClassComponentObserver_patches_witness :
  ∃ patched wrapped,
    makeClassComponentObserver exClass = (patched, Normal wrapped)
    ∧ shouldComponentUpdate patched = ScuObserverSCU
    ∧ getDisplayName wrapped = "Example"
    ∧ ∃ wrapped', (makeClassComponentObserver patched).2 = Normal wrapped'.
Proof.
  eexists _, _. split; [reflexivity|].
  destruct (makeClassComponentObserver_patches exClass _ _ eq_refl)
    as (Hp & _ & Hn & _ & _ & Hagain).
  split; [reflexivity|]. split; [exact Hn | exact Hagain].
Defined.

Lemma makeClassComponentObserver_failure_witness :
  ∃ patched e,
    makeClassComponentObserver exPureClass = (patched, Abrupt e)
    ∧ hasSetScheduleUpdate patched = true
    ∧ hasPatchedRender patched = false.
Proof.
  eexists _, _. split; [reflexivity|].
  destruct (makeClassComponentObserver_failure exPureClass _ _ eq_refl)
    as (H1 & H2 & _).
  split; [exact H1 | exact H2].
Defined.

Lemma componentDidMount_rejects_own_hook_witness :
  DEV ownHookInstance = true
  ∧ didMountOnPrototype ownHookInstance = false
  ∧ ∃ msg,
      componentDidMount (Some (mret VNull)) ownHookInstance
      = (Abrupt (Err msg), ownHookInstance).
Proof.
  split; [reflexivity|]. split; [reflexivity|].
  exact (componentDidMount_rejects_own_hook (Some (mret VNull)) ownHookInstance
           eq_refl eq_refl).
Defined.

Lemma fresh_token_reaches_listeners_witness :
  (Invalidate = DidMount ∨ Invalidate = Invalidate)
  ∧ MobxObserverStore.value exStore < symbols statelessInstance
  ∧ trace (@runOp exShallowEqual Invalidate statelessInstance).2
    = trace statelessInstance ++ [ScheduleUpdate 7 3]
  ∧ (7, 3) ∈ scheduledUpdates [ScheduleUpdate 7 3]
  ∧ MobxObserverStore.setValue 3 exStore = (MobxObserverStore.mk 3 [1], [1]).
Proof.
  assert (Ho : Invalidate = DidMount ∨ Invalidate = Invalidate) by (right; reflexivity).
  assert (Hv : MobxObserverStore.value exStore < symbols statelessInstance)
    by (cbn; lia).
  assert (Hin : (7, 3) ∈ scheduledUpdates [ScheduleUpdate 7 3])
    by (cbn; apply list_elem_of_singleton; reflexivity).
  split; [exact Ho|]. split; [exact Hv|]. split; [reflexivity|].
  split; [exact Hin|].
  exact (@fresh_token_reaches_listeners exShallowEqual Invalidate
           statelessInstance [ScheduleUpdate 7 3] 7 3 exStore
           Ho Hv eq_refl Hin).
Defined.
